(** * Icon utilities of the Jumpz app: a shallow embedding

    Two scripts are embedded here:

    - [fix_icon_transparency] (src/fix_icon.py, "Alpha-Stripper"): flattens
      the iOS app icon onto white and writes it back as PNG;
    - [resize_logo] (src/resize_logo.py, "Logo-Resizer"): writes five square
      Android launcher icons derived from [logo.png].

    Both scripts are straight-line users of the file system ([os]) and of
    Pillow ([PIL.Image]).  The file system is a finite map from paths to
    nodes, Python exceptions are an error result, and every call with an
    outside effect is appended to a log.  Pillow is modelled at the level of
    its Python API; the two numeric kernels the scripts never look into (mode
    conversion and resampling) are operations of the class [PillowCore]. *)

From Stdlib Require Import Ascii.
From stdpp Require Import gmap strings list pretty.

Open Scope Z_scope.

(** ** Images *)

(** A pixel is the list of its band values, in the band order of the mode
    (['RGBA'] is [[r; g; b; a]], ['LA'] is [[l; a]]). *)
Definition pixel := list Z.

(** [img.mode] is a Python [str]; [img.size] is [(width, height)]; the raster
    is row-major. *)
Record image := Image {
  im_mode : string;
  im_size : Z * Z;
  im_data : list pixel
}.

(** File formats (three of those Pillow identifies and writes). *)
Inductive format := PNG | JPEG | BMP.

(** [Image.Resampling]. *)
Inductive resampling := NEAREST | BOX | BILINEAR | HAMMING | BICUBIC | LANCZOS.

Definition format_name (fmt : format) : string :=
  match fmt with
  | PNG => "PNG"
  | JPEG => "JPEG"
  | BMP => "BMP"
  end.

#[global] Instance format_eq_dec : EqDecision format.
Proof. solve_decision. Defined.

#[global] Instance resampling_eq_dec : EqDecision resampling.
Proof. solve_decision. Defined.

#[global] Instance image_eq_dec : EqDecision image.
Proof. solve_decision. Defined.

(** The numeric kernels of Pillow that the scripts call but never inspect.
    [convert_core m img] is the raster of [img.convert(m)], [None] when Pillow
    has no converter for the pair of modes ([ValueError]).
    [resample_core f img size] is the raster of [img.resize(size, f)], [None]
    when the resampler rejects the image ([ValueError]). *)
Class PillowCore := {
  convert_core : string -> image -> option (list pixel);
  resample_core : resampling -> image -> Z * Z -> option (list pixel)
}.

(** Modes with an alpha band ([Image.has_transparency_data] on the mode). *)
Definition has_alpha (m : string) : bool :=
  bool_decide (m ∈ ["LA"; "La"; "PA"; "RGBA"; "RGBa"]).

(** [Image.getbands]: the number of bands of a mode. *)
Definition mode_bands (m : string) : nat :=
  if bool_decide (m ∈ ["1"; "L"; "P"; "I"; "F"; "I;16"; "I;16L"; "I;16B"; "I;16N"]) then 1
  else if bool_decide (m ∈ ["LA"; "La"; "PA"]) then 2
  else if bool_decide (m ∈ ["RGB"; "YCbCr"; "LAB"; "HSV"]) then 3
  else if bool_decide (m ∈ ["RGBA"; "RGBa"; "RGBX"; "CMYK"]) then 4
  else 0.

(** Image modes the writers accept ([_OUTMODES] of the PNG plugin, [RAWMODE]
    of the JPEG plugin, [SAVE] of the BMP plugin).  The PNG writer takes
    ['I'] up to Pillow 12. *)
Definition save_modes (fmt : format) : list string :=
  match fmt with
  | PNG => ["1"; "L"; "LA"; "I"; "I;16"; "I;16B"; "P"; "RGB"; "RGBA"]
  | JPEG => ["1"; "L"; "RGB"; "RGBX"; "CMYK"; "YCbCr"]
  | BMP => ["1"; "L"; "P"; "RGB"; "RGBA"]
  end.

(** *** Pixel storage and blending (libImaging) *)

(** Multi-band 8-bit modes are stored in four bytes per pixel: ['LA'] as
    [L, L, L, A], ['RGB'] as [R, G, B, 255], ['RGBA'] as [R, G, B, A]. *)
Definition storage (m : string) (px : pixel) : list Z :=
  if bool_decide (m ∈ ["LA"; "La"]) then
    match px with
    | [l; a] => [l; l; l; a]
    | _ => px
    end
  else if bool_decide (m = "RGB") then
    match px with
    | [r; g; b] => [r; g; b; 255]
    | _ => px
    end
  else px.

(** Reading an ['RGB'] pixel back from its storage drops the pad byte. *)
Definition unpack_rgb (st : list Z) : pixel := take 3 st.

(** [DIV255(a, tmp)]: [tmp = a + 128, (((tmp >> 8) + tmp) >> 8)]. *)
Definition DIV255 (a : Z) : Z :=
  let tmp := a + 128 in Z.shiftr (Z.shiftr tmp 8 + tmp) 8.

(** [BLEND(mask, in1, in2, tmp)], stored into a [UINT8]. *)
Definition BLEND (mask in1 in2 : Z) : Z :=
  Z.land (DIV255 (in1 * (255 - mask) + in2 * mask)) 255.

(** [paste_mask_L] on one pixel: every stored byte of the destination is
    blended with the source byte under the 8-bit matte. *)
Definition paste_mask_L (out inp : list Z) (mask : Z) : list Z :=
  zip_with (fun o i => BLEND mask o i) out inp.

(** ** The world: file system and log *)

(** What a file holds: an image encoded in some format (the format and
    the image it decodes to), or bytes that no decoder identifies. *)
Inductive content :=
  | Encoded (fmt : format) (img : image)
  | Junk.

Inductive node :=
  | File (writable : bool) (c : content)
  | Dir (writable : bool).

#[global] Instance content_eq_dec : EqDecision content.
Proof. solve_decision. Defined.

#[global] Instance node_eq_dec : EqDecision node.
Proof. solve_decision. Defined.

(** Calls with an effect outside the process, in program order. *)
Inductive event :=
  | EvPrint (line : string)
  | EvOpen (path : string)
  | EvMakedirs (path : string)
  | EvResize (size : Z * Z) (resample : resampling)
  | EvSave (path : string) (fmt : format).

(** Paths are relative to the working directory, which is the key [[]]. *)
Record world := World {
  w_fs : gmap (list string) node;
  w_log : list event
}.

(** *** Exceptions *)

Inductive exn_class :=
  | FileNotFoundError | FileExistsError | IsADirectoryError
  | NotADirectoryError | PermissionError | UnidentifiedImageError
  | OSError | ValueError | IndexError.

(** An exception with [str(e)]. *)
Record exn := Exn { exn_cls : exn_class; exn_text : string }.

Inductive result (A : Type) :=
  | Return (a : A)
  | Raise (e : exn).
Arguments Return {A} a.
Arguments Raise {A} e.

(** A Python computation: runs in a world, returns or raises, leaves a
    world. *)
Definition M (A : Type) : Type := world -> result A * world.

Definition ret {A} (a : A) : M A := fun w => (Return a, w).

Definition raise {A} (e : exn) : M A := fun w => (Raise e, w).

Definition bind {A B} (c : M A) (k : A -> M B) : M B :=
  fun w =>
    match c w with
    | (Return a, w') => k a w'
    | (Raise e, w') => (Raise e, w')
    end.

(** [try: body  except Exception as e: handler(e)]. *)
Definition try_except {A} (body : M A) (handler : exn -> M A) : M A :=
  fun w =>
    match body w with
    | (Return a, w') => (Return a, w')
    | (Raise e, w') => handler e w'
    end.

Declare Scope py_scope.
Delimit Scope py_scope with py.
Notation "x <- c ;; k" := (bind c (fun x => k))
  (at level 100, c at next level, right associativity) : py_scope.
Notation "c ;;; k" := (bind c (fun _ => k))
  (at level 100, right associativity) : py_scope.
Open Scope py_scope.

(** [for x in l: body(x)]. *)
Fixpoint for_each {A} (l : list A) (body : A -> M unit) : M unit :=
  match l with
  | [] => ret tt
  | x :: l' => body x ;;; for_each l' body
  end.

Definition get_fs : M (gmap (list string) node) := fun w => (Return (w_fs w), w).

Definition set_fs (fs : gmap (list string) node) : M unit :=
  fun w => (Return tt, World fs (w_log w)).

Definition emit (e : event) : M unit :=
  fun w => (Return tt, World (w_fs w) (w_log w ++ [e])).

Definition print (line : string) : M unit := emit (EvPrint line).

(** *** Paths *)

(** The components of a relative path: split at ['/'], empty components
    dropped. *)
Fixpoint split_slash (s : string) : list string :=
  match s with
  | EmptyString => [EmptyString]
  | String a s' =>
      if Ascii.eqb a "/"%char then EmptyString :: split_slash s'
      else match split_slash s' with
           | [] => [String a EmptyString]
           | c :: cs => String a c :: cs
           end
  end.

Definition components (path : string) : list string :=
  filter (fun c => c ≠ EmptyString) (split_slash path).

Definition parent (p : list string) : list string := removelast p.

Definition show_path (p : list string) : string := String.concat "/" p.

Definition os_error (cls : exn_class) (what : string) (path : string) : exn :=
  Exn cls (what +:+ ": '" +:+ path +:+ "'").

(** ** The [os] module *)

(** [os.path.exists(path)]: true for files and directories alike. *)
Definition os_path_exists (path : string) : M bool :=
  fs <- get_fs ;;
  ret (bool_decide (is_Some (fs !! components path))).

(** [os.mkdir]: creates one directory under an existing, writable
    directory. *)
Definition os_mkdir (p : list string) : M unit :=
  fs <- get_fs ;;
  match fs !! p with
  | Some _ => raise (os_error FileExistsError "[Errno 17] File exists" (show_path p))
  | None =>
      match fs !! parent p with
      | None =>
          raise (os_error FileNotFoundError "[Errno 2] No such file or directory" (show_path p))
      | Some (File _ _) =>
          raise (os_error NotADirectoryError "[Errno 20] Not a directory" (show_path p))
      | Some (Dir false) =>
          raise (os_error PermissionError "[Errno 13] Permission denied" (show_path p))
      | Some (Dir true) => set_fs (<[p := Dir true]> fs)
      end
  end.

Definition is_dir (fs : gmap (list string) node) (p : list string) : bool :=
  match fs !! p with
  | Some (Dir _) => true
  | _ => false
  end.

(** [os.makedirs(name, exist_ok=True)] on the reversed component list:
    the head is made first when it does not exist (a [FileExistsError] from
    that recursive call is passed over), then [mkdir(name)] is tried, and its
    [OSError] is swallowed exactly when [name] is a directory by then. *)
Fixpoint makedirs_rev (rp : list string) : M unit :=
  match rp with
  | [] => ret tt
  | _ :: rhead =>
      (match rhead with
       | [] => ret tt
       | _ :: _ =>
           fs <- get_fs ;;
           if bool_decide (is_Some (fs !! rev rhead)) then ret tt
           else try_except (makedirs_rev rhead)
                  (fun e => match exn_cls e with
                            | FileExistsError => ret tt
                            | _ => raise e
                            end)
       end) ;;;
      try_except (os_mkdir (rev rp))
        (fun e => fs <- get_fs ;;
                  if is_dir fs (rev rp) then ret tt else raise e)
  end.

Definition os_makedirs (name : string) : M unit :=
  emit (EvMakedirs name) ;;;
  makedirs_rev (rev (components name)).

(** ** [PIL.Image] *)

Section Pillow.
Context `{PillowCore}.

(** [Image.open(path)]: the file is opened for reading and identified by
    its content. *)
Definition Image_open (path : string) : M image :=
  emit (EvOpen path) ;;;
  fs <- get_fs ;;
  match fs !! components path with
  | None => raise (os_error FileNotFoundError "[Errno 2] No such file or directory" path)
  | Some (Dir _) => raise (os_error IsADirectoryError "[Errno 21] Is a directory" path)
  | Some (File _ Junk) =>
      raise (Exn UnidentifiedImageError ("cannot identify image file '" +:+ path +:+ "'"))
  | Some (File _ (Encoded _ img)) => ret img
  end.

(** [Image.new(mode, size, color)]. *)
Definition Image_new (mode : string) (size : Z * Z) (color : pixel) : image :=
  Image mode size (replicate (Z.to_nat (size.1 * size.2)) color).

(** [img.split()]: one ['L'] image per band. *)
Definition Image_split (img : image) : list image :=
  map (fun k => Image "L" (im_size img) (map (fun px => [nth k px 0]) (im_data img)))
      (seq 0 (mode_bands (im_mode img))).

(** [img.convert(mode)]. *)
Definition Image_convert (img : image) (mode : string) : M image :=
  if bool_decide (mode = im_mode img) then ret img
  else match convert_core mode img with
       | Some d => ret (Image mode (im_size img) d)
       | None =>
           raise (Exn ValueError
                    ("conversion from " +:+ im_mode img +:+ " to " +:+ mode +:+ " not supported"))
       end.

(** Reading a pixel of mode [m] back from its storage. *)
Definition unpack (m : string) (st : list Z) : pixel :=
  if bool_decide (m = "RGB") then unpack_rgb st
  else if bool_decide (m ∈ ["LA"; "La"]) then
    match st with
    | [l; _; _; a] => [l; a]
    | _ => st
    end
  else st.

(** [self.paste(im, mask=mask)] with no box.  The source is converted to
    the mode of [self] first, unless [self] is ['RGB'] and the source is
    ['LA'], ['RGBA'] or ['RGBa'], whose storage is pasted as it is.  Without
    a matte the stored bytes are copied; with an ['L'] matte they are
    blended.  The method updates [self] in place; the updated image is
    returned here.  Only what the script reaches is modelled in full: a
    source of the size of [self] and a matte of mode ['L'].  A source of
    another size (which Pillow clips) and the other kinds of matte come out
    as [ValueError]. *)
Definition Image_paste (self im : image) (mask : option image) : M image :=
  im <- (if bool_decide (im_mode self ≠ im_mode im)
            && negb (bool_decide (im_mode self = "RGB")
                     && bool_decide (im_mode im ∈ ["LA"; "RGBA"; "RGBa"]))
         then Image_convert im (im_mode self)
         else ret im) ;;
  if negb (bool_decide (im_size im = im_size self)) then
    raise (Exn ValueError "images do not match")
  else
    match mask with
    | None =>
        ret (Image (im_mode self) (im_size self)
               (map (fun px => unpack (im_mode self) (storage (im_mode im) px)) (im_data im)))
    | Some m =>
        if negb (bool_decide (im_mode m = "L")) then
          raise (Exn ValueError "bad transparency mask")
        else if negb (bool_decide (im_size m = im_size self)) then
          raise (Exn ValueError "images do not match")
        else
          ret (Image (im_mode self) (im_size self)
                 (zip_with
                    (fun out ia =>
                       unpack (im_mode self)
                         (paste_mask_L (storage (im_mode self) out)
                            (storage (im_mode im) ia.1) (nth 0 ia.2 0)))
                    (im_data self) (zip (im_data im) (im_data m))))
    end.

(** [img.resize(size, resample)]: an image of the requested size in the mode
    of the source. *)
Definition Image_resize (img : image) (size : Z * Z) (resample : resampling) : M image :=
  emit (EvResize size resample) ;;;
  match resample_core resample img size with
  | Some d => ret (Image (im_mode img) size d)
  | None => raise (Exn ValueError "image has wrong mode")
  end.

(** [img.save(path, fmt)].  The file is opened with ["w+b"], which creates
    or truncates it; then the writer runs.  A writer that rejects the mode
    raises [OSError]; the file is removed again if this call created it. *)
Definition Image_save (img : image) (path : string) (fmt : format) : M unit :=
  emit (EvSave path fmt) ;;;
  fs <- get_fs ;;
  let p := components path in
  let created := negb (bool_decide (is_Some (fs !! p))) in
  (match fs !! p with
   | Some (Dir _) => raise (os_error IsADirectoryError "[Errno 21] Is a directory" path)
   | Some (File false _) => raise (os_error PermissionError "[Errno 13] Permission denied" path)
   | Some (File true _) => set_fs (<[p := File true Junk]> fs)
   | None =>
       match fs !! parent p with
       | None => raise (os_error FileNotFoundError "[Errno 2] No such file or directory" path)
       | Some (File _ _) => raise (os_error NotADirectoryError "[Errno 20] Not a directory" path)
       | Some (Dir false) => raise (os_error PermissionError "[Errno 13] Permission denied" path)
       | Some (Dir true) => set_fs (<[p := File true Junk]> fs)
       end
   end) ;;;
  fs <- get_fs ;;
  if bool_decide (im_mode img ∈ save_modes fmt) then
    set_fs (<[p := File true (Encoded fmt img)]> fs)
  else
    (if created then set_fs (delete p fs) else ret tt) ;;;
    raise (Exn OSError ("cannot write mode " +:+ im_mode img +:+ " as " +:+ format_name fmt)).

(** ** src/fix_icon.py *)

Definition icon_path : string :=
  "ios/Runner/Assets.xcassets/AppIcon.appiconset/Icon-App-1024x1024@1x.png".

(** The [if]/[elif] of the script that produces the image to save:
    lines 16 to 25. *)
Definition remove_alpha (img : image) : M image :=
  (* Convert to RGB to remove alpha channel *)
  if bool_decide (im_mode img ∈ ["RGBA"; "LA"]) then
    (* Create a white background *)
    let background := Image_new "RGB" (im_size img) [255; 255; 255] in
    background <-
      (if bool_decide (im_mode img = "RGBA") then
         (* Use alpha channel as mask *)
         match last (Image_split img) with
         | Some alpha => Image_paste background img (Some alpha)
         | None => raise (Exn IndexError "tuple index out of range")
         end
       else Image_paste background img None) ;;
    ret background
  else if bool_decide (im_mode img ≠ "RGB") then Image_convert img "RGB"
  else ret img.

Definition fix_icon_transparency : M unit :=
  found <- os_path_exists icon_path ;;
  if found then
    (* Open the image *)
    img <- Image_open icon_path ;;
    img <- remove_alpha img ;;
    (* Save without alpha channel *)
    Image_save img icon_path PNG ;;;
    print ("✅ Fixed transparency in " +:+ icon_path)
  else
    print ("❌ Icon file not found: " +:+ icon_path).

(** ** src/resize_logo.py *)

Definition densities : list (string * Z) :=
  [ ("mipmap-mdpi", 48);
    ("mipmap-hdpi", 72);
    ("mipmap-xhdpi", 96);
    ("mipmap-xxhdpi", 144);
    ("mipmap-xxxhdpi", 192) ].

Definition show_size (size : Z * Z) : string :=
  "(" +:+ pretty size.1 +:+ ", " +:+ pretty size.2 +:+ ")".

(** The body of the [for folder, size in densities] loop. *)
Definition resize_one (img : image) (target : string * Z) : M unit :=
  let '(folder, size) := target in
  (* Create folder if it doesn't exist *)
  let folder_path := "android/app/src/main/res/" +:+ folder in
  os_makedirs folder_path ;;;
  (* Resize the image *)
  resized <- Image_resize img (size, size) LANCZOS ;;
  (* Save the resized image *)
  let output_path := folder_path +:+ "/ic_launcher.png" in
  Image_save resized output_path PNG ;;;
  print ("✅ Created " +:+ folder +:+ " icon (" +:+ pretty size +:+ "x" +:+ pretty size +:+ ")").

(** The body of the [try] statement: lines 28 to 49. *)
Definition resize_logo_try : M bool :=
  (* Open the original logo *)
  img <- Image_open "logo.png" ;;
  print ("📱 Original logo size: " +:+ show_size (im_size img)) ;;;
  for_each densities (resize_one img) ;;;
  print "🎉 Logo resizing complete!" ;;;
  print "📱 All Android app icons have been created in the correct folders." ;;;
  print "🚀 Your app will now display the custom Jumpz logo!" ;;;
  ret true.

Definition resize_logo : M bool :=
  print "🎨 Resizing Jumpz logo for Android app icons..." ;;;
  (* Check if logo exists *)
  found <- os_path_exists "logo.png" ;;
  if negb found then
    print "❌ logo.png not found in current directory" ;;;
    ret false
  else
    try_except resize_logo_try
      (fun e =>
         print ("❌ Error resizing logo: " +:+ exn_text e) ;;;
         ret false).

End Pillow.

(** * Vocabulary of the statements *)

(** ** File-system states *)

(** [extends_by P fs fs']: [fs'] is [fs] with new writable directories at
    some paths that satisfy [P]; nothing that was there has changed. *)
Definition extends_by (P : list string -> Prop)
    (fs fs' : gmap (list string) node) : Prop :=
  forall k, fs' !! k = fs !! k
            \/ (fs !! k = None /\ fs' !! k = Some (Dir true) /\ P k).

(** [k] is a directory on the way to [p]: a non-empty prefix of [p]. *)
Definition dir_prefix (p k : list string) : Prop := k <> [] /\ k `prefix_of` p.

(** A file system in which [makedirs p] cannot fail: the working directory
    is writable and nothing but writable directories lies on the way. *)
Definition way_clear (fs : gmap (list string) node) (p : list string) : Prop :=
  fs !! [] = Some (Dir true)
  /\ forall k, dir_prefix p k -> fs !! k = None \/ fs !! k = Some (Dir true).

(** When a save can get at its file: the file is there and writable, or it
    is not there and its directory is writable. *)
Definition can_write (fs : gmap (list string) node) (p : list string) : Prop :=
  (exists c, fs !! p = Some (File true c))
  \/ (fs !! p = None /\ fs !! parent p = Some (Dir true)).

(** ** Targets of the Logo-Resizer *)

(** The two paths of a target, as the loop body builds them. *)
Definition folder_path_of (folder : string) : string :=
  "android/app/src/main/res/" +:+ folder.

Definition output_path_of (folder : string) : string :=
  folder_path_of folder +:+ "/ic_launcher.png".

Definition folder_key (t : string * Z) : list string :=
  components (folder_path_of t.1).

Definition output_key (t : string * Z) : list string :=
  components (output_path_of t.1).

Definition created_line (t : string * Z) : string :=
  "✅ Created " +:+ t.1 +:+ " icon (" +:+ pretty t.2 +:+ "x" +:+ pretty t.2 +:+ ")".

(** The calls one target makes when nothing fails, in order. *)
Definition trace_one (t : string * Z) : list event :=
  [ EvMakedirs (folder_path_of t.1);
    EvResize (t.2, t.2) LANCZOS;
    EvSave (output_path_of t.1) PNG;
    EvPrint (created_line t) ].

(** Side conditions on a list of targets, all decided by computation for
    [densities]: the output file lies directly in its folder, no output path
    is the working directory or lies on the way to a folder, and no two
    targets share an output path. *)
Definition targets_ok (l : list (string * Z)) : Prop :=
  Forall (fun t => folder_key t <> [] /\ parent (output_key t) = folder_key t) l
  /\ Forall (fun t => output_key t <> []
                      /\ Forall (fun t' => ~ (output_key t `prefix_of` folder_key t')) l) l
  /\ NoDup (output_key <$> l).

#[global] Instance targets_ok_dec l : Decision (targets_ok l).
Proof. unfold targets_ok. apply _. Defined.

(** The state a completed target leaves behind: its icon, of the target's
    square size and in the mode of the source, inside its folder. *)
Definition target_done `{PillowCore} (img : image) (t : string * Z)
    (fs : gmap (list string) node) : Prop :=
  exists d,
    resample_core LANCZOS img (t.2, t.2) = Some d
    /\ fs !! output_key t
       = Some (File true (Encoded PNG (Image (im_mode img) (t.2, t.2) d)))
    /\ is_dir fs (folder_key t) = true
    /\ (parent (folder_key t) = [] \/ is_Some (fs !! parent (folder_key t)))
    /\ im_mode img ∈ save_modes PNG.

(** What a run over the targets [l] may do to the file system: write the
    output files of [l] and add directories on the way to its folders. *)
Definition touched (l : list (string * Z))
    (fs fs' : gmap (list string) node) : Prop :=
  forall k, fs' !! k = fs !! k
            \/ (k ∈ output_key <$> l)
            \/ (fs !! k = None /\ fs' !! k = Some (Dir true)
                /\ exists t, t ∈ l /\ dir_prefix (folder_key t) k).

(** ** Log lines of the Logo-Resizer *)

Abbreviation logo_key := (components "logo.png").

Definition banner : event :=
  EvPrint "🎨 Resizing Jumpz logo for Android app icons...".

Definition logo_missing : event :=
  EvPrint "❌ logo.png not found in current directory".

(** What is logged before the loop, and after it on success. *)
Definition header (img : image) : list event :=
  [ banner; EvOpen "logo.png";
    EvPrint ("📱 Original logo size: " +:+ show_size (im_size img)) ].

Definition footer : list event :=
  [ EvPrint "🎉 Logo resizing complete!";
    EvPrint "📱 All Android app icons have been created in the correct folders.";
    EvPrint "🚀 Your app will now display the custom Jumpz logo!" ].

Definition error_line (e : exn) : event :=
  EvPrint ("❌ Error resizing logo: " +:+ exn_text e).

(** ** Worlds in which the Logo-Resizer cannot fail *)

(** The directories on the way to [p], [p] included. *)
Definition dirs_to (p : list string) : list (list string) :=
  (fun n => take n p) <$> seq 1 (length p).

Definition free_or_dir (fs : gmap (list string) node) (k : list string) : bool :=
  match fs !! k with
  | None | Some (Dir true) => true
  | _ => false
  end.

Definition free_or_file (fs : gmap (list string) node) (k : list string) : bool :=
  match fs !! k with
  | None | Some (File true _) => true
  | _ => false
  end.

(** [ready l fs]: the working directory is writable, nothing but writable
    directories lies on the way to the folders of [l], and each output path
    of [l] is free or holds a writable file. *)
Definition ready (l : list (string * Z)) (fs : gmap (list string) node) : bool :=
  bool_decide (fs !! [] = Some (Dir true))
  && forallb (fun t => forallb (free_or_dir fs) (dirs_to (folder_key t))
                       && free_or_file fs (output_key t)) l.

(** ** Executable kernels and sample worlds *)

(** Nearest-neighbour sampling of a raster. *)
Definition nearest (img : image) (size : Z * Z) : list pixel :=
  let '(w, h) := im_size img in
  let '(w', h') := size in
  flat_map
    (fun y => (fun x => nth (Z.to_nat ((y * h / h') * w + x * w / w')) (im_data img) [])
              <$> seqZ 0 w')
    (seqZ 0 h').

(** An instance of the kernels that computes: nearest-neighbour sampling of
    8-bit images whatever the filter, and band replication from ['L'] to
    ['RGB'].  It serves to run the scripts on concrete worlds. *)
Definition nearest_core : PillowCore := {|
  convert_core m img :=
    if bool_decide (im_mode img = "L") && bool_decide (m = "RGB")
    then Some ((fun px => match px with [l] => [l; l; l] | _ => px end) <$> im_data img)
    else None;
  resample_core f img size :=
    if bool_decide (im_mode img ∈ ["L"; "LA"; "RGB"; "RGBA"; "CMYK"])
    then Some (nearest img size)
    else None
|}.

(** A writable working directory that holds one node at [path], under the
    directories that lead to it; nothing has been logged. *)
Definition world_with (path : string) (n : node) : world :=
  World (<[components path := n]>
           (foldr (fun d fs => <[d := Dir true]> fs) {[ [] := Dir true ]}
                  (dirs_to (parent (components path))))) [].

(** A two-pixel ['RGBA'] image: one opaque pixel, one transparent. *)
Definition sample_rgba : image :=
  Image "RGBA" (2, 1) [[10; 20; 30; 255]; [40; 50; 60; 0]].

(** A two-pixel ['LA'] image: one opaque pixel, one transparent. *)
Definition sample_la : image :=
  Image "LA" (2, 1) [[10; 255]; [0; 0]].

(** A working directory with an ['LA'] logo in which [mipmap-hdpi] is a
    plain file: the first target is written, the second fails in
    [makedirs]. *)
Definition world_blocked : world :=
  World (<[components "logo.png" := File true (Encoded PNG sample_la)]>
           (w_fs (world_with "android/app/src/main/res/mipmap-hdpi" (File true Junk)))) [].

(** ** The schedule of the Logo-Resizer *)




(** ** Log lines of the Alpha-Stripper *)

Abbreviation icon_key := (components icon_path).

Definition icon_missing : event :=
  EvPrint ("❌ Icon file not found: " +:+ icon_path).

Definition icon_fixed : event :=
  EvPrint ("✅ Fixed transparency in " +:+ icon_path).

(** ** More sample worlds *)

(** An empty working directory. *)
Definition world_empty : world := World {[ [] := Dir true ]} [].

(** Three icons on which a step raises: bytes that are no image, an image
    in a mode without a converter to ['RGB'] (with [nearest_core]), and a
    read-only file. *)
Definition world_junk : world := world_with icon_path (File true Junk).

Definition world_lab : world :=
  world_with icon_path (File true (Encoded PNG (Image "LAB" (1, 1) [[50; 0; 0]]))).

Definition world_readonly : world :=
  world_with icon_path (File false (Encoded PNG sample_rgba)).

(** An ['RGB'] JPEG at the icon path. *)
Definition world_jpeg : world :=
  world_with icon_path (File true (Encoded JPEG (Image "RGB" (1, 1) [[1; 2; 3]]))).

(** ** Well-formed rasters *)

(** An 8-bit band value. *)
Definition is_byte (v : Z) : Prop := 0 <= v <= 255.

(** An image of an 8-bit mode is well formed when its raster has one pixel
    per position of the frame and every pixel has one byte per band of the
    mode. *)
Definition well_formed (img : image) : Prop :=
  length (im_data img) = Z.to_nat ((im_size img).1 * (im_size img).2)
  /\ Forall (fun px => length px = mode_bands (im_mode img) /\ Forall is_byte px)
            (im_data img).

#[global] Instance is_byte_dec v : Decision (is_byte v).
Proof. unfold is_byte. apply _. Defined.

#[global] Instance well_formed_dec img : Decision (well_formed img).
Proof. unfold well_formed. apply _. Defined.

(** A working directory in which [logo.png] is a directory. *)
Definition world_logo_dir : world := world_with "logo.png" (Dir true).

(** * Reasoning about runs *)

(** ** The monad *)

Lemma bind_inv {A B} (c : M A) (k : A -> M B) w r w' :
  bind c k w = (r, w') ->
  (exists a w1, c w = (Return a, w1) /\ k a w1 = (r, w'))
  \/ (exists e, c w = (Raise e, w') /\ r = Raise e).
Proof.
  unfold bind. destruct (c w) as [[a|e] w1]; intros Hrun.
  - left. by exists a, w1.
  - right. exists e. by inversion Hrun.
Qed.

Lemma bind_return {A B} (c : M A) (k : A -> M B) w a w1 :
  c w = (Return a, w1) -> bind c k w = k a w1.
Proof. unfold bind. by intros ->. Qed.

Lemma bind_raise {A B} (c : M A) (k : A -> M B) w e w1 :
  c w = (Raise e, w1) -> bind c k w = (Raise e, w1).
Proof. unfold bind. by intros ->. Qed.

(** A run is its outcome and the world it leaves. *)
Lemma run_outcome {A} (c : M A) w r : (c w).1 = r -> c w = (r, (c w).2).
Proof. intros <-. by destruct (c w). Qed.

Lemma try_except_inv {A} (body : M A) (h : exn -> M A) w r w' :
  try_except body h w = (r, w') ->
  (exists a, body w = (Return a, w') /\ r = Return a)
  \/ (exists e w1, body w = (Raise e, w1) /\ h e w1 = (r, w')).
Proof.
  unfold try_except. destruct (body w) as [[a|e] w1]; intros Hrun.
  - left. exists a. by inversion Hrun.
  - right. by exists e, w1.
Qed.

(** [bind_split H as a w1 H1] splits a run [H] of [bind]: either the first
    part returned [a] in [w1] (that fact is [H1], the rest of the run stays
    in [H]), or it raised.  [try_split H as e w1 H1] does the same for
    [try_except], naming the exception caught. *)
Ltac drop_units := repeat match goal with u : unit |- _ => destruct u end.

Ltac settle_result E :=
  first [ discriminate E
        | match type of E with ?r = _ => subst r end
        | injection E as E; first [ subst | idtac ] ].

Tactic Notation "bind_split" hyp(H) "as" ident(a) ident(w1) ident(H1) :=
  let E := fresh "E" in
  apply bind_inv in H as [(a & w1 & H1 & H) | (a & H & E)];
  [ | settle_result E ]; drop_units.

Tactic Notation "try_split" hyp(H) "as" ident(e) ident(w1) ident(H1) :=
  let E := fresh "E" in
  apply try_except_inv in H as [(e & H & E) | (e & w1 & H1 & H)];
  [ settle_result E | ]; drop_units.

(** ** File-system growth *)

Lemma extends_by_refl P fs : extends_by P fs fs.
Proof. intros k. by left. Qed.

Lemma extends_by_trans P fs1 fs2 fs3 :
  extends_by P fs1 fs2 -> extends_by P fs2 fs3 -> extends_by P fs1 fs3.
Proof.
  intros H12 H23 k. destruct (H23 k) as [E23 | (N2 & D3 & HP)].
  - rewrite E23. apply H12.
  - destruct (H12 k) as [E12 | (N1 & D2 & _)].
    + right. rewrite <- E12. done.
    + congruence.
Qed.

Lemma extends_by_weaken (P Q : list string -> Prop) fs fs' :
  (forall k, P k -> Q k) -> extends_by P fs fs' -> extends_by Q fs fs'.
Proof.
  intros HPQ H k. destruct (H k) as [E | (N & D & HP)]; [by left | right; auto].
Qed.

Lemma extends_by_keeps P fs fs' k v :
  extends_by P fs fs' -> fs !! k = Some v -> fs' !! k = Some v.
Proof. intros H Hk. destruct (H k) as [E | (N & _)]; congruence. Qed.

Lemma extends_by_is_dir P fs fs' k :
  extends_by P fs fs' -> is_dir fs k = true -> is_dir fs' k = true.
Proof.
  unfold is_dir. intros H. destruct (fs !! k) as [v|] eqn:E; [|done].
  by rewrite (extends_by_keeps _ _ _ _ _ H E).
Qed.

Lemma dir_prefix_snoc p c k : dir_prefix p k -> dir_prefix (p ++ [c]) k.
Proof. intros [Hne Hpre]. split; [done|]. by apply prefix_app_r. Qed.

Lemma dir_prefix_self p : p <> [] -> dir_prefix p p.
Proof. by split. Qed.

(** ** [os.mkdir] and [os.makedirs] *)

Lemma os_mkdir_inv p w r w' :
  os_mkdir p w = (r, w') ->
  w_log w' = w_log w
  /\ ((r = Return tt /\ w_fs w !! p = None
       /\ w_fs w !! parent p = Some (Dir true)
       /\ w_fs w' = <[p := Dir true]> (w_fs w))
      \/ (exists e, r = Raise e /\ w_fs w' = w_fs w
                    /\ (exn_cls e = FileExistsError -> is_Some (w_fs w !! p)))).
Proof.
  unfold os_mkdir, bind, get_fs, raise, set_fs. destruct w as [fs log]; simpl.
  destruct (fs !! p) as [n|] eqn:Hp.
  - intros [= <- <-]. split; [done|]. right. eexists. eauto.
  - destruct (fs !! parent p) as [[rw c|[]]|] eqn:Hpar;
      intros [= <- <-]; simpl; (split; [done|]);
      first [ by left | right; eexists; repeat split; done ].
Qed.

(** What any run of [makedirs] guarantees: the log is left alone, the file
    system only gains writable directories on the way to the path, a normal
    return leaves the path a directory under an existing head, and a
    [FileExistsError] comes out only when the path exists. *)
Lemma makedirs_rev_inv rp : forall w r w',
  makedirs_rev rp w = (r, w') ->
  w_log w' = w_log w
  /\ extends_by (dir_prefix (rev rp)) (w_fs w) (w_fs w')
  /\ (r = Return tt -> rp <> [] ->
      is_dir (w_fs w') (rev rp) = true
      /\ (tail rp <> [] -> is_Some (w_fs w' !! rev (tail rp))))
  /\ (forall e, r = Raise e -> exn_cls e = FileExistsError ->
      is_Some (w_fs w' !! rev rp)).
Proof.
  induction rp as [|c rhead IH]; intros w r w' Hrun.
  { inversion Hrun; subst. repeat split; try done. apply extends_by_refl. }
  cbn [makedirs_rev] in Hrun.
  (* the head *)
  assert (Hhead : forall r1 w1,
            (match rhead with
             | [] => ret tt
             | _ :: _ =>
                 fs <- get_fs ;;
                 if bool_decide (is_Some (fs !! rev rhead)) then ret tt
                 else try_except (makedirs_rev rhead)
                        (fun e => match exn_cls e with
                                  | FileExistsError => ret tt
                                  | _ => raise e
                                  end)
             end) w = (r1, w1) ->
            w_log w1 = w_log w
            /\ extends_by (dir_prefix (rev rhead)) (w_fs w) (w_fs w1)
            /\ (r1 = Return tt -> rhead <> [] -> is_Some (w_fs w1 !! rev rhead))
            /\ (forall e, r1 = Raise e -> exn_cls e <> FileExistsError)).
  { intros r1 w1 H1. destruct rhead as [|c' rh'].
    { inversion H1; subst. repeat split; try done. apply extends_by_refl. }
    unfold bind at 1, get_fs at 1 in H1. case_bool_decide as Hex.
    { inversion H1; subst. repeat split; try done. apply extends_by_refl. }
    try_split H1 as e w2 H2.
    - destruct (IH _ _ _ H1) as (Hlog & Hext & Hret & _).
      repeat split; try done. intros _ Hne.
      destruct (Hret eq_refl Hne) as [Hd _]. unfold is_dir in Hd.
      destruct (w_fs w1 !! rev (c' :: rh')); [by eexists | done].
    - destruct (IH _ _ _ H2) as (Hlog & Hext & _ & Hfe).
      destruct (exn_cls e) eqn:Hcls; inversion H1; subst;
        repeat split; try done; try congruence.
      intros _ _. by apply (Hfe e). }
  change (rev (c :: rhead)) with (rev rhead ++ [c]) in *.
  bind_split Hrun as a w1 H1.
  - destruct (Hhead _ _ H1) as (Hlog1 & Hext1 & Hhd & _).
    apply (extends_by_weaken _ (dir_prefix (rev rhead ++ [c]))) in Hext1;
      [| intros k; apply dir_prefix_snoc].
    try_split Hrun as e w2 H2.
    + (* mkdir made the directory *)
      destruct (os_mkdir_inv _ _ _ _ Hrun) as (Hlog2 & [(_ & Hnone & Hpar & Hfs) | (e' & ? & _)]);
        [| done].
      split; [congruence|]. split; [| split].
      * eapply extends_by_trans; [exact Hext1|]. intros k.
        rewrite Hfs. destruct (decide (k = rev rhead ++ [c])) as [->|Hne].
        -- right. rewrite lookup_insert_eq. repeat split; try done.
           by destruct (rev rhead).
        -- left. by rewrite lookup_insert_ne.
      * intros _ _. rewrite Hfs. unfold is_dir. rewrite lookup_insert_eq.
        split; [done|]. cbn [tail]. intros Hne.
        apply lookup_insert_is_Some'. right. auto.
      * done.
    + (* mkdir raised: passed over when the path is a directory *)
      destruct (os_mkdir_inv _ _ _ _ H2) as (Hlog2 & [(? & _) | (e' & [= <-] & Hfs & Hfe)]);
        [done|].
      unfold bind at 1, get_fs at 1 in Hrun.
      destruct (is_dir (w_fs w2) (rev rhead ++ [c])) eqn:Hd;
        inversion Hrun; subst; (split; [congruence|]); rewrite ?Hfs in *.
      * repeat split; try done. cbn [tail]. intros Hne. auto.
      * repeat split; try done. intros e' [= <-] Hcls. auto.
  - destruct (Hhead _ _ Hrun) as (Hlog1 & Hext1 & _ & Hnfe).
    split; [done|]. split; [| split].
    + eapply extends_by_weaken; [| exact Hext1]. intros k; apply dir_prefix_snoc.
    + done.
    + intros e' [= <-] Hcls. by destruct (Hnfe _ eq_refl).
Qed.

Lemma parent_snoc (p : list string) c : parent (p ++ [c]) = p.
Proof. apply removelast_last. Qed.

Lemma not_dir_prefix_snoc (p : list string) c : ~ dir_prefix p (p ++ [c]).
Proof.
  intros [_ Hpre]. apply prefix_length in Hpre.
  rewrite length_app in Hpre. simpl in Hpre. lia.
Qed.

Lemma makedirs_rev_ok rp : forall w,
  rp <> [] -> way_clear (w_fs w) (rev rp) ->
  exists w', makedirs_rev rp w = (Return tt, w')
             /\ w_fs w' !! rev rp = Some (Dir true).
Proof.
  induction rp as [|c rhead IH]; intros w Hne [Hroot Hway]; [done|].
  change (rev (c :: rhead)) with (rev rhead ++ [c]) in *.
  (* the head is there afterwards, writable *)
  assert (Hhead : exists w1,
            (match rhead with
             | [] => ret tt
             | _ :: _ =>
                 fs <- get_fs ;;
                 if bool_decide (is_Some (fs !! rev rhead)) then ret tt
                 else try_except (makedirs_rev rhead)
                        (fun e => match exn_cls e with
                                  | FileExistsError => ret tt
                                  | _ => raise e
                                  end)
             end) w = (Return tt, w1)
            /\ w_fs w1 !! rev rhead = Some (Dir true)
            /\ w_fs w1 !! (rev rhead ++ [c]) = w_fs w !! (rev rhead ++ [c])).
  { destruct rhead as [|c' rh'].
    { exists w. by repeat split. }
    unfold bind at 1, get_fs at 1. case_bool_decide as Hex.
    - exists w. split; [done|]. split; [|done].
      destruct (Hway (rev (c' :: rh'))) as [Hk|Hk]; [| | done].
      + apply dir_prefix_snoc, dir_prefix_self. simpl. by destruct (rev rh').
      + rewrite Hk in Hex. by destruct Hex.
    - destruct (IH w) as (w1 & Hrun & Hd); [done | |].
      { split; [done|]. intros k Hk. by apply Hway, dir_prefix_snoc. }
      exists w1. unfold try_except. rewrite Hrun. split; [done|]. split; [done|].
      destruct (makedirs_rev_inv _ _ _ _ Hrun) as (_ & Hext & _).
      destruct (Hext (rev (c' :: rh') ++ [c])) as [E | (_ & _ & Hpre)]; [done|].
      by apply not_dir_prefix_snoc in Hpre. }
  destruct Hhead as (w1 & Hrun1 & Hhd & Hsame).
  cbn [makedirs_rev]. change (rev (c :: rhead)) with (rev rhead ++ [c]).
  rewrite (bind_return _ _ _ _ _ Hrun1).
  unfold try_except, os_mkdir, bind at 1, get_fs at 1.
  rewrite Hsame, parent_snoc, Hhd.
  destruct (Hway (rev rhead ++ [c])) as [Hk|Hk].
  - apply dir_prefix_self. by destruct (rev rhead).
  - rewrite Hk. eexists. split; [reflexivity|]. simpl. by rewrite lookup_insert_eq.
  - rewrite Hk. unfold raise, bind, get_fs, is_dir. rewrite Hsame, Hk.
    eexists. split; [reflexivity|]. by rewrite Hsame.
Qed.

(** ** [Image.save], [Image.open], [Image.resize] *)

Lemma Image_save_inv img path fmt w r w' :
  Image_save img path fmt w = (r, w') ->
  w_log w' = w_log w ++ [EvSave path fmt]
  /\ (forall k, k <> components path -> w_fs w' !! k = w_fs w !! k)
  /\ (r = Return tt ->
      w_fs w' = <[components path := File true (Encoded fmt img)]> (w_fs w)
      /\ im_mode img ∈ save_modes fmt
      /\ can_write (w_fs w) (components path)).
Proof.
  destruct w as [fs log].
  unfold Image_save, bind, emit, get_fs, set_fs, raise, can_write; simpl.
  destruct (fs !! components path) as [[[] c|rw]|] eqn:Hp; simpl.
  - case_bool_decide as Hm; intros [= <- <-]; simpl.
    + split; [done|]. split.
      * intros k Hk. by rewrite !lookup_insert_ne.
      * intros _. rewrite insert_insert_eq. eauto.
    + split; [done|]. split; [|done].
      intros k Hk. by rewrite lookup_insert_ne.
  - intros [= <- <-]. by repeat split.
  - intros [= <- <-]. by repeat split.
  - destruct (fs !! parent (components path)) as [[rw c|[]]|] eqn:Hpar; simpl;
      try (intros [= <- <-]; by repeat split).
    case_bool_decide as Hm; intros [= <- <-]; simpl.
    + split; [done|]. split.
      * intros k Hk. by rewrite !lookup_insert_ne.
      * intros _. rewrite insert_insert_eq. eauto.
    + split; [done|]. split; [|done].
      intros k Hk. by rewrite lookup_delete_ne, lookup_insert_ne.
Qed.

Lemma Image_save_ok img path fmt w :
  im_mode img ∈ save_modes fmt ->
  can_write (w_fs w) (components path) ->
  Image_save img path fmt w
  = (Return tt,
     World (<[components path := File true (Encoded fmt img)]> (w_fs w))
           (w_log w ++ [EvSave path fmt])).
Proof.
  intros Hm Hcw. destruct w as [fs log].
  unfold Image_save, bind, emit, get_fs, set_fs, raise; simpl in *.
  destruct Hcw as [[c Hp] | [Hp Hpar]]; rewrite Hp; simpl.
  - rewrite bool_decide_true by done. by rewrite insert_insert_eq.
  - rewrite Hpar; simpl. rewrite bool_decide_true by done.
    by rewrite insert_insert_eq.
Qed.

Lemma Image_open_inv path w r w' :
  Image_open path w = (r, w') ->
  w_fs w' = w_fs w
  /\ w_log w' = w_log w ++ [EvOpen path]
  /\ (forall img, r = Return img ->
      exists rw fmt, w_fs w !! components path = Some (File rw (Encoded fmt img))).
Proof.
  destruct w as [fs log]. unfold Image_open, bind, emit, get_fs, raise, ret; simpl.
  destruct (fs !! components path) as [[rw [fmt img|]|rw]|];
    intros [= <- <-]; repeat split; try done.
  intros ? [= <-]. eauto.
Qed.

Lemma Image_open_ok path w rw fmt img :
  w_fs w !! components path = Some (File rw (Encoded fmt img)) ->
  Image_open path w = (Return img, World (w_fs w) (w_log w ++ [EvOpen path])).
Proof.
  intros Hp. destruct w as [fs log].
  unfold Image_open, bind, emit, get_fs, ret; simpl in *. by rewrite Hp.
Qed.

Section Runs.
Context `{PillowCore}.

Lemma Image_resize_inv img size f w r w' :
  Image_resize img size f w = (r, w') ->
  w_fs w' = w_fs w
  /\ w_log w' = w_log w ++ [EvResize size f]
  /\ (forall out, r = Return out ->
      exists d, resample_core f img size = Some d
                /\ out = Image (im_mode img) size d).
Proof.
  destruct w as [fs log]. unfold Image_resize, bind, emit, raise, ret; simpl.
  destruct (resample_core f img size) as [d|];
    intros [= <- <-]; repeat split; try done.
  intros ? [= <-]. eauto.
Qed.

End Runs.

(** ** One target of the Logo-Resizer *)

Lemma densities_ok : targets_ok densities.
Proof. compute_done. Qed.

Lemma length_parent (p : list string) : length (parent p) = pred (length p).
Proof.
  destruct p as [|c p _] using rev_ind; [done|].
  rewrite parent_snoc, length_app. simpl. lia.
Qed.

Lemma os_makedirs_inv name w r w' :
  os_makedirs name w = (r, w') ->
  w_log w' = w_log w ++ [EvMakedirs name]
  /\ extends_by (dir_prefix (components name)) (w_fs w) (w_fs w')
  /\ (r = Return tt -> components name <> [] ->
      is_dir (w_fs w') (components name) = true
      /\ (parent (components name) = []
          \/ is_Some (w_fs w' !! parent (components name)))).
Proof.
  unfold os_makedirs, bind at 1, emit at 1. intros Hrun.
  apply makedirs_rev_inv in Hrun as (Hlog & Hext & Hret & _).
  rewrite rev_involutive in *. simpl in *.
  split; [done|]. split; [done|]. intros Hr Hne.
  destruct (components name) as [|c p _] using rev_ind; [done|].
  rewrite parent_snoc. rewrite rev_app_distr in Hret. simpl in Hret.
  destruct (Hret Hr) as [Hd Hhead]; [done|]. split; [done|].
  destruct (decide (rev p = [])) as [E|E].
  - left. apply (f_equal (@rev string)) in E. by rewrite rev_involutive in E.
  - right. rewrite <- (rev_involutive p). by apply Hhead.
Qed.

Lemma os_makedirs_ok name w :
  components name <> [] -> way_clear (w_fs w) (components name) ->
  exists fs', os_makedirs name w = (Return tt, World fs' (w_log w ++ [EvMakedirs name]))
              /\ fs' !! components name = Some (Dir true).
Proof.
  intros Hne Hway. unfold os_makedirs, bind at 1, emit at 1.
  destruct (makedirs_rev_ok (rev (components name))
              (World (w_fs w) (w_log w ++ [EvMakedirs name])))
    as (w' & Hrun & Hd).
  - intros E. apply (f_equal (@rev string)) in E. by rewrite rev_involutive in E.
  - by rewrite rev_involutive.
  - rewrite rev_involutive in Hd.
    destruct (makedirs_rev_inv _ _ _ _ Hrun) as (Hlog & _).
    exists (w_fs w'). rewrite Hrun. split; [|done].
    destruct w' as [fs' log']. simpl in *. by subst.
Qed.

(** On a directory that is already there, [makedirs] changes nothing. *)
Lemma os_makedirs_again name w :
  is_dir (w_fs w) (components name) = true ->
  parent (components name) = [] \/ is_Some (w_fs w !! parent (components name)) ->
  os_makedirs name w = (Return tt, World (w_fs w) (w_log w ++ [EvMakedirs name])).
Proof.
  intros Hd Hhead. unfold os_makedirs, bind at 1, emit at 1.
  destruct (components name) as [|c p _] using rev_ind.
  { unfold is_dir in Hd. simpl. done. }
  rewrite parent_snoc in Hhead. rewrite rev_app_distr. cbn [rev app makedirs_rev].
  assert (Hfirst :
            (match rev p with
             | [] => ret tt
             | _ :: _ =>
                 fs <- get_fs ;;
                 if bool_decide (is_Some (fs !! rev (rev p))) then ret tt
                 else try_except (makedirs_rev (rev p))
                        (fun e => match exn_cls e with
                                  | FileExistsError => ret tt
                                  | _ => raise e
                                  end)
             end) (World (w_fs w) (w_log w ++ [EvMakedirs name]))
            = (Return tt, World (w_fs w) (w_log w ++ [EvMakedirs name]))).
  { destruct (rev p) eqn:E; [done|].
    rewrite <- E, rev_involutive. unfold bind, get_fs. simpl.
    destruct Hhead as [->|Hs]; [done|]. by rewrite bool_decide_true. }
  rewrite (bind_return _ _ _ _ _ Hfirst).
  unfold try_except, os_mkdir, bind, get_fs, raise. simpl.
  rewrite rev_involutive. unfold is_dir in *.
  destruct (w_fs w !! (p ++ [c])) as [[|]|] eqn:E; try done.
  simpl. by rewrite E.
Qed.

#[local] Opaque components.

Section Target.
Context `{PillowCore}.
Variable img : image.

(** The loop body with its two local paths named. *)
Lemma resize_one_eq t :
  resize_one img t =
  (os_makedirs (folder_path_of t.1) ;;;
   resized <- Image_resize img (t.2, t.2) LANCZOS ;;
   Image_save resized (output_path_of t.1) PNG ;;;
   print (created_line t)).
Proof. by destruct t. Qed.

Lemma touched_refl l fs : touched l fs fs.
Proof. intros k. by left. Qed.

Lemma touched_cons t l fs1 fs2 fs3 :
  touched [t] fs1 fs2 -> touched l fs2 fs3 -> touched (t :: l) fs1 fs3.
Proof.
  intros H12 H23 k.
  destruct (H12 k) as [E12 | [Ho | (N1 & D2 & t1 & Ht1 & Hp)]].
  - destruct (H23 k) as [E23 | [Ho | (N2 & D3 & t2 & Ht2 & Hp)]].
    + left. congruence.
    + right; left. simpl. by right.
    + right; right. rewrite <- E12. repeat split; try done.
      exists t2. split; [by right | done].
  - right; left. apply list_elem_of_singleton in Ho as ->. simpl. by left.
  - apply list_elem_of_singleton in Ht1 as ->.
    destruct (H23 k) as [E23 | [Ho | (N2 & _)]].
    + right; right. rewrite E23. repeat split; try done.
      exists t. split; [by left | done].
    + right; left. simpl. by right.
    + congruence.
Qed.

Lemma resize_one_inv t w r w' :
  folder_key t <> [] -> parent (output_key t) = folder_key t ->
  resize_one img t w = (r, w') ->
  touched [t] (w_fs w) (w_fs w')
  /\ (r = Return tt ->
      w_log w' = w_log w ++ trace_one t /\ target_done img t (w_fs w'))
  /\ (forall e, r = Raise e ->
      exists j, (1 <= j <= 3)%nat /\ w_log w' = w_log w ++ take j (trace_one t)).
Proof.
  intros Hne Hpar Hrun. rewrite resize_one_eq in Hrun.
  assert (Hfo : folder_key t <> output_key t).
  { intros E. rewrite E in Hpar. apply (f_equal length) in Hpar.
    rewrite length_parent in Hpar. rewrite <- E in Hpar.
    destruct (folder_key t); [done | simpl in Hpar; lia]. }
  assert (Hpo : parent (folder_key t) <> output_key t).
  { intros E. apply (f_equal length) in E, Hpar.
    rewrite length_parent in E, Hpar.
    destruct (folder_key t); [done | simpl in *; lia]. }
  bind_split Hrun as a w1 H1.
  - apply os_makedirs_inv in H1 as (Hlog1 & Hext1 & Hret1).
    destruct (Hret1 eq_refl Hne) as [Hd1 Hhd1].
    assert (Ht1 : touched [t] (w_fs w) (w_fs w1)).
    { intros k. destruct (Hext1 k) as [E | (N & D & Hp)]; [by left|].
      right; right. repeat split; try done. exists t. split; [by left | done]. }
    bind_split Hrun as resized w2 H2.
    + apply Image_resize_inv in H2 as (Hfs2 & Hlog2 & Hret2).
      destruct (Hret2 _ eq_refl) as (d & Hd & ->).
      bind_split Hrun as a w3 H3.
      * apply Image_save_inv in H3 as (Hlog3 & Hfr3 & Hret3).
        destruct (Hret3 eq_refl) as (Hfs3 & Hm & _).
        unfold print, emit in Hrun. inversion Hrun; subst; simpl.
        split; [| split; [| done]].
        -- intros k. destruct (decide (k = output_key t)) as [->|Hk].
           ++ right; left. by left.
           ++ rewrite Hfs3, lookup_insert_ne, Hfs2 by done. apply Ht1.
        -- intros _. split.
           ++ rewrite Hlog3, Hlog2, Hlog1. by rewrite <- !app_assoc.
           ++ exists d. split; [done|]. rewrite Hfs3. unfold is_dir.
              rewrite lookup_insert_eq, !lookup_insert_ne, Hfs2 by done.
              by repeat split.
      * apply Image_save_inv in Hrun as (Hlog3 & Hfr3 & _).
        split; [| split; [done |]].
        -- intros k. destruct (decide (k = output_key t)) as [->|Hk].
           ++ right; left. by left.
           ++ rewrite Hfr3, Hfs2 by done. apply Ht1.
        -- intros e _. exists 3%nat. split; [lia|].
           rewrite Hlog3, Hlog2, Hlog1. by rewrite <- !app_assoc.
    + apply Image_resize_inv in Hrun as (Hfs2 & Hlog2 & _).
      split; [| split; [done |]].
      * by rewrite Hfs2.
      * intros e _. exists 2%nat. split; [lia|].
        rewrite Hlog2, Hlog1. by rewrite <- !app_assoc.
  - apply os_makedirs_inv in Hrun as (Hlog1 & Hext1 & _).
    split; [| split; [done |]].
    + intros k. destruct (Hext1 k) as [E | (N & D & Hp)]; [by left|].
      right; right. repeat split; try done. exists t. split; [by left | done].
    + intros e _. exists 1%nat. split; [lia | done].
Qed.

End Target.

(** ** The loop over the targets *)

Lemma targets_ok_cons t l :
  targets_ok (t :: l) ->
  targets_ok l
  /\ folder_key t <> [] /\ parent (output_key t) = folder_key t
  /\ output_key t <> []
  /\ (output_key t ∉ output_key <$> l)
  /\ (forall t', t' ∈ l -> ~ (output_key t' `prefix_of` folder_key t))
  /\ (forall t', t' ∈ l -> ~ (output_key t `prefix_of` folder_key t')).
Proof.
  unfold targets_ok. rewrite fmap_cons, NoDup_cons, !Forall_cons.
  intros (([Hf Hp] & Hfs) & ((Ho & _ & Hot) & Hos) & Hnin & Hnd).
  rewrite Forall_forall in Hos, Hot.
  split; [split; [done | split; [| done]] |].
  - apply Forall_forall. intros t0 Ht0.
    destruct (Hos _ Ht0) as [Hne Hall]. split; [done|].
    by apply Forall_cons in Hall as [_ Hall].
  - do 4 (split; [done|]). split; [| done].
    intros t' Ht'. destruct (Hos _ Ht') as [_ Hall].
    by apply Forall_cons in Hall as [Hall _].
Qed.

Lemma parent_prefix (p : list string) : parent p `prefix_of` p.
Proof.
  destruct p as [|c p _] using rev_ind; [done|].
  rewrite parent_snoc. by apply prefix_app_r.
Qed.

Section Loop.
Context `{PillowCore}.
Variable img : image.

Lemma target_done_keep t l fs fs' :
  target_done img t fs -> touched l fs fs' ->
  (output_key t ∉ output_key <$> l) ->
  (forall t', t' ∈ l -> ~ (output_key t' `prefix_of` folder_key t)) ->
  target_done img t fs'.
Proof.
  intros (d & Hd & Hout & Hdir & Hhead & Hm) Ht Hnin Hnp.
  assert (Hkeep : forall k v, k `prefix_of` folder_key t \/ k = output_key t ->
                              fs !! k = Some v -> fs' !! k = Some v).
  { intros k v Hk Hv. destruct (Ht k) as [E | [Ho | (N & _)]]; [congruence | | congruence].
    destruct Hk as [Hk | ->]; [| done].
    apply list_elem_of_fmap in Ho as (t' & -> & Ht'). by destruct (Hnp _ Ht'). }
  exists d. repeat split; try done.
  - apply Hkeep; auto.
  - unfold is_dir in *. destruct (fs !! folder_key t) as [v|] eqn:E; [|done].
    by rewrite (Hkeep _ _ (or_introl (reflexivity _)) E).
  - destruct Hhead as [E | [v Hv]]; [by left | right].
    exists v. apply Hkeep; [| done]. left. apply parent_prefix.
Qed.

(** Every run of the loop: the targets split into those completed, whose
    icons are in place at the end, and the rest, of which the first one
    raised after one to three of its calls; the log holds the calls of the
    completed targets in order, then the calls made of the failing one. *)
Lemma for_each_resize_inv l : targets_ok l -> forall w r w',
  for_each l (resize_one img) w = (r, w') ->
  touched l (w_fs w) (w_fs w')
  /\ exists done rest,
      l = done ++ rest
      /\ Forall (fun t => target_done img t (w_fs w')) done
      /\ ((r = Return tt /\ rest = []
           /\ w_log w' = w_log w ++ flat_map trace_one l)
          \/ (exists e t rest' j,
                r = Raise e /\ rest = t :: rest' /\ (1 <= j <= 3)%nat
                /\ w_log w'
                   = w_log w ++ flat_map trace_one done ++ take j (trace_one t))).
Proof.
  induction l as [|t l IH]; intros Hok w r w' Hrun.
  { inversion Hrun; subst. split; [apply touched_refl|].
    exists [], []. repeat split; try done. left. by rewrite app_nil_r. }
  apply targets_ok_cons in Hok as (Hok & Hne & Hpar & Hone & Hnin & Hnp & Hnp').
  cbn [for_each] in Hrun. bind_split Hrun as a w1 H1.
  - apply resize_one_inv in H1 as (Ht1 & Hret1 & _); [| done..].
    destruct (Hret1 eq_refl) as [Hlog1 Hdone1].
    destruct (IH Hok _ _ _ Hrun) as (Ht2 & done & rest & -> & Hdone & Hcase).
    split; [by eapply touched_cons|].
    exists (t :: done), rest. split; [done|]. split.
    + apply Forall_cons. split; [| done].
      eapply target_done_keep; eauto.
    + destruct Hcase as [(-> & -> & Hlog) | (e & t' & rest' & j & -> & -> & Hj & Hlog)].
      * left. repeat split; try done. rewrite Hlog, Hlog1.
        cbn [flat_map]. by rewrite <- !app_assoc.
      * right. exists e, t', rest', j. repeat split; try done; try lia.
        rewrite Hlog, Hlog1. cbn [flat_map]. by rewrite <- !app_assoc.
  - apply resize_one_inv in Hrun as (Ht1 & _ & Hraise); [| done..].
    destruct (Hraise _ eq_refl) as (j & Hj & Hlog).
    split.
    { intros k. destruct (Ht1 k) as [E | [Ho | (N & D & t' & Ht' & Hp)]].
      - by left.
      - right; left. apply list_elem_of_singleton in Ho as ->. by left.
      - right; right. repeat split; try done.
        apply list_elem_of_singleton in Ht' as ->. exists t. split; [by left | done]. }
    exists [], (t :: l). repeat split; try done.
    right. exists a, t, l, j. by repeat split; try lia.
Qed.

End Loop.

(** ** Whole runs of the Logo-Resizer *)

Lemma os_path_exists_eq path w :
  os_path_exists path w
  = (Return (bool_decide (is_Some (w_fs w !! components path))), w).
Proof. done. Qed.

Section Resizer.
Context `{PillowCore}.

(** The script up to the existence check. *)
Lemma resize_logo_missing w :
  w_fs w !! logo_key = None ->
  resize_logo w = (Return false, World (w_fs w) (w_log w ++ [banner; logo_missing])).
Proof.
  intros Hno. unfold resize_logo, print.
  unfold bind at 1, emit at 1. unfold bind at 1. rewrite os_path_exists_eq.
  cbn [w_fs w_log]. rewrite Hno.
  rewrite bool_decide_false by (by intros [? ?]).
  cbn [negb]. unfold bind, emit, ret. cbn [w_fs w_log].
  by rewrite <- app_assoc.
Qed.

(** The script from the [try] on, when something is at [logo.png]. *)
Lemma resize_logo_present w :
  is_Some (w_fs w !! logo_key) ->
  resize_logo w
  = try_except resize_logo_try
      (fun e => print ("❌ Error resizing logo: " +:+ exn_text e) ;;; ret false)
      (World (w_fs w) (w_log w ++ [banner])).
Proof.
  intros Hyes. unfold resize_logo, print.
  unfold bind at 1, emit at 1. unfold bind at 1. rewrite os_path_exists_eq.
  cbn [w_fs w_log]. by rewrite bool_decide_true.
Qed.

(** A run that finds an image at [logo.png]. *)
Lemma resize_logo_decoded w rw fmt img :
  w_fs w !! logo_key = Some (File rw (Encoded fmt img)) ->
  exists b w',
    resize_logo w = (Return b, w')
    /\ touched densities (w_fs w) (w_fs w')
    /\ exists done rest,
        densities = done ++ rest
        /\ Forall (fun t => target_done img t (w_fs w')) done
        /\ ((b = true /\ rest = []
             /\ w_log w'
                = w_log w ++ header img ++ flat_map trace_one densities ++ footer)
            \/ (exists e t rest' j,
                  b = false /\ rest = t :: rest' /\ (1 <= j <= 3)%nat
                  /\ w_log w'
                     = w_log w ++ header img ++ flat_map trace_one done
                       ++ take j (trace_one t) ++ [error_line e])).
Proof.
  intros Hlogo. rewrite resize_logo_present by (by rewrite Hlogo).
  unfold try_except, resize_logo_try.
  rewrite (bind_return _ _ _ _ _
             (Image_open_ok "logo.png" (World (w_fs w) (w_log w ++ [banner]))
                rw fmt img Hlogo)).
  unfold print at 1. unfold bind at 1, emit at 1. cbn [w_fs w_log].
  unfold bind at 1.
  destruct (for_each densities (resize_one img) _) as [[[]|e] w3] eqn:Hloop;
    apply (for_each_resize_inv img _ densities_ok) in Hloop
      as (Ht & done & rest & Hsplit & Hdone & Hcase); cbn [w_fs w_log] in *.
  - destruct Hcase as [(_ & -> & Hlog) | (? & ? & ? & ? & ? & _)]; [| done].
    eexists _, _. split; [reflexivity|]. cbn [w_fs w_log].
    split; [done|]. exists done, []. split; [done|]. split; [done|].
    left. repeat split; try done. rewrite Hlog. unfold header, footer.
    rewrite <- !app_assoc. done.
  - destruct Hcase as [(? & _) | (e' & t & rest' & j & [= <-] & -> & Hj & Hlog)]; [done|].
    eexists _, _. split; [reflexivity|]. cbn [w_fs w_log].
    split; [done|]. exists done, (t :: rest'). split; [done|]. split; [done|].
    right. exists e, t, rest', j. repeat split; try done; try lia.
    rewrite Hlog. unfold header, error_line. rewrite <- !app_assoc. done.
Qed.

(** The [except] clause catches whatever the body raises: every run
    returns. *)
Lemma resize_logo_returns w : exists b w', resize_logo w = (Return b, w').
Proof.
  destruct (w_fs w !! logo_key) as [[rw [fmt img|]|rw]|] eqn:Hlogo.
  - destruct (resize_logo_decoded w rw fmt img Hlogo) as (b & w' & Hrun & _). eauto.
  - rewrite resize_logo_present by (by rewrite Hlogo).
    unfold try_except, resize_logo_try.
    unfold Image_open, bind at 1, bind at 1, emit at 1, bind at 1, get_fs at 1.
    cbn [w_fs w_log]. rewrite Hlogo. unfold raise at 1. eauto.
  - rewrite resize_logo_present by (by rewrite Hlogo).
    unfold try_except, resize_logo_try.
    unfold Image_open, bind at 1, bind at 1, emit at 1, bind at 1, get_fs at 1.
    cbn [w_fs w_log]. rewrite Hlogo. unfold raise at 1. eauto.
  - rewrite resize_logo_missing by done. eauto.
Qed.

End Resizer.

Lemma dir_prefix_dirs_to p k : dir_prefix p k -> k ∈ dirs_to p.
Proof.
  intros [Hne [k' ->]]. unfold dirs_to.
  apply list_elem_of_fmap. exists (length k). split.
  - by rewrite take_app_length.
  - apply elem_of_seq. rewrite length_app. destruct k; [done | simpl; lia].
Qed.

Lemma ready_cons t l fs :
  ready (t :: l) fs = true ->
  way_clear fs (folder_key t)
  /\ free_or_file fs (output_key t) = true
  /\ ready l fs = true.
Proof.
  unfold ready. cbn [forallb]. rewrite !andb_true_iff, bool_decide_eq_true.
  intros (Hroot & (Hdirs & Hout) & Hl). repeat split; try done.
  intros k Hk%dir_prefix_dirs_to.
  rewrite forallb_forall in Hdirs. apply list_elem_of_In, Hdirs in Hk.
  unfold free_or_dir in Hk. destruct (fs !! k) as [[|[]]|]; auto; done.
Qed.

Section Ready.
Context `{PillowCore}.
Variable img : image.

Lemma resize_one_ok t w :
  folder_key t <> [] -> parent (output_key t) = folder_key t ->
  ~ (output_key t `prefix_of` folder_key t) ->
  way_clear (w_fs w) (folder_key t) ->
  free_or_file (w_fs w) (output_key t) = true ->
  im_mode img ∈ save_modes PNG ->
  is_Some (resample_core LANCZOS img (t.2, t.2)) ->
  exists w', resize_one img t w = (Return tt, w').
Proof.
  intros Hne Hpar Hnp Hway Hfree Hm [d Hd]. rewrite resize_one_eq.
  destruct (os_makedirs_ok (folder_path_of t.1) w Hne Hway) as (fs1 & Hrun1 & Hdir).
  rewrite (bind_return _ _ _ _ _ Hrun1).
  assert (Hsame : fs1 !! output_key t = w_fs w !! output_key t).
  { apply os_makedirs_inv in Hrun1 as (_ & Hext & _). cbn [w_fs] in Hext.
    destruct (Hext (output_key t)) as [E | (_ & _ & _ & Hp)]; [done|].
    by destruct Hnp. }
  unfold Image_resize, bind at 1, bind at 1, emit at 1. rewrite Hd.
  unfold ret at 1. cbn [w_fs w_log].
  erewrite bind_return; [by eexists|].
  apply Image_save_ok; [done|]. cbn [w_fs]. fold (output_key t).
  unfold can_write, free_or_file in *. rewrite Hsame, Hpar.
  destruct (w_fs w !! output_key t) as [[[] c|]|]; try done; eauto.
Qed.

Lemma ready_step t l fs fs' :
  targets_ok (t :: l) -> ready (t :: l) fs = true ->
  touched [t] fs fs' -> ready l fs' = true.
Proof.
  intros (Hok & Hne & Hpar & Hone & Hnin & Hnp & Hnp')%targets_ok_cons
         (_ & _ & Hl)%ready_cons Ht.
  unfold ready in *. apply andb_true_iff in Hl as [Hroot Hl].
  apply bool_decide_eq_true in Hroot. rewrite forallb_forall in Hl.
  apply andb_true_iff. split.
  - apply bool_decide_eq_true.
    destruct (Ht []) as [E | [Ho | (_ & _ & t' & _ & [Hk _])]]; [congruence | | done].
    by apply list_elem_of_singleton in Ho.
  - apply forallb_forall. intros t' Ht'. specialize (Hl _ Ht').
    apply list_elem_of_In in Ht'.
    apply andb_true_iff in Hl as [Hdirs Hout]. rewrite forallb_forall in Hdirs.
    apply andb_true_iff. split.
    + apply forallb_forall. intros k Hk. specialize (Hdirs _ Hk).
      unfold free_or_dir in *.
      destruct (Ht k) as [E | [Ho | (_ & D & _)]]; [by rewrite E | | by rewrite D].
      apply list_elem_of_singleton in Ho as ->.
      destruct (Hnp' _ Ht'). apply list_elem_of_In in Hk. unfold dirs_to in Hk.
      apply list_elem_of_fmap in Hk as (n & -> & _). apply prefix_take.
    + unfold free_or_file in *.
      destruct (Ht (output_key t')) as [E | [Ho | (_ & _ & t0 & Ht0 & [_ Hp])]];
        [by rewrite E | |].
      * apply list_elem_of_singleton in Ho. destruct Hnin. rewrite <- Ho.
        by apply list_elem_of_fmap_2.
      * apply list_elem_of_singleton in Ht0 as ->. by destruct (Hnp _ Ht').
Qed.

Lemma for_each_resize_ok l : targets_ok l -> forall w,
  ready l (w_fs w) = true ->
  im_mode img ∈ save_modes PNG ->
  (forall t, t ∈ l -> is_Some (resample_core LANCZOS img (t.2, t.2))) ->
  exists w', for_each l (resize_one img) w = (Return tt, w').
Proof.
  induction l as [|t l IH]; intros Hok w Hready Hm Hres; [by eexists|].
  pose proof Hok as (Hok' & Hne & Hpar & Hone & Hnin & Hnp & Hnp')%targets_ok_cons.
  pose proof Hready as (Hway & Hfree & _)%ready_cons.
  destruct (resize_one_ok t w) as (w1 & Hrun1); try done.
  { destruct Hok as (_ & Hsc & _). apply Forall_cons in Hsc as [(_ & Hall) _].
    by apply Forall_cons in Hall as [Hall _]. }
  { apply Hres. by left. }
  cbn [for_each]. rewrite (bind_return _ _ _ _ _ Hrun1).
  apply IH; try done.
  - apply resize_one_inv in Hrun1 as (Ht & _); [| done..].
    by eapply ready_step.
  - intros t' Ht'. apply Hres. by right.
Qed.

End Ready.

Section Outcome.
Context `{PillowCore}.

(** The outcome of the script in terms of the outcome of its loop. *)
Lemma resize_logo_via_loop w rw fmt img r w3 :
  w_fs w !! logo_key = Some (File rw (Encoded fmt img)) ->
  for_each densities (resize_one img) (World (w_fs w) (w_log w ++ header img))
  = (r, w3) ->
  resize_logo w
  = match r with
    | Return _ => (Return true, World (w_fs w3) (w_log w3 ++ footer))
    | Raise e => (Return false, World (w_fs w3) (w_log w3 ++ [error_line e]))
    end.
Proof.
  intros Hlogo Hloop. rewrite resize_logo_present by (by rewrite Hlogo).
  unfold try_except, resize_logo_try.
  rewrite (bind_return _ _ _ _ _
             (Image_open_ok "logo.png" (World (w_fs w) (w_log w ++ [banner]))
                rw fmt img Hlogo)).
  unfold print at 1. unfold bind at 1, emit at 1. cbn [w_fs w_log].
  unfold bind at 1.
  replace (((w_log w ++ [banner]) ++ [EvOpen "logo.png"]) ++
           [EvPrint ("📱 Original logo size: " +:+ show_size (im_size img))])
    with (w_log w ++ header img) by (unfold header; by rewrite <- !app_assoc).
  rewrite Hloop. destruct r as [[]|e].
  - unfold print, bind, emit, ret, footer. cbn [w_fs w_log].
    by rewrite <- !app_assoc.
  - unfold print, bind, emit, ret, error_line. by cbn [w_fs w_log].
Qed.

End Outcome.

(** In a ready world the script succeeds. *)
Lemma resize_logo_ready `{PillowCore} w rw fmt img :
  w_fs w !! logo_key = Some (File rw (Encoded fmt img)) ->
  im_mode img ∈ save_modes PNG ->
  (forall t, t ∈ densities -> is_Some (resample_core LANCZOS img (t.2, t.2))) ->
  ready densities (w_fs w) = true ->
  exists w3,
    for_each densities (resize_one img) (World (w_fs w) (w_log w ++ header img))
    = (Return tt, w3)
    /\ resize_logo w = (Return true, World (w_fs w3) (w_log w3 ++ footer)).
Proof.
  intros Hlogo Hm Hres Hready.
  destruct (for_each_resize_ok img densities densities_ok
              (World (w_fs w) (w_log w ++ header img)) Hready Hm Hres)
    as (w3 & Hloop).
  exists w3. split; [done|].
  by rewrite (resize_logo_via_loop _ _ _ _ _ _ Hlogo Hloop).
Qed.

(** The sample worlds with a logo are ready. *)
Lemma sample_logo_succeeds img :
  im_mode img ∈ ["L"; "LA"; "RGB"; "RGBA"] ->
  exists w',
    @resize_logo nearest_core (world_with "logo.png" (File true (Encoded PNG img)))
    = (Return true, w').
Proof.
  intros Hm.
  assert (Hpng : im_mode img ∈ save_modes PNG
                 /\ bool_decide (im_mode img ∈ ["L"; "LA"; "RGB"; "RGBA"; "CMYK"]) = true).
  { rewrite !elem_of_cons in Hm.
    destruct Hm as [-> | [-> | [-> | [-> | Hm]]]];
      [split; compute_done.. | by apply elem_of_nil in Hm]. }
  destruct Hpng as [Hpng Hres].
  destruct (@resize_logo_ready nearest_core
              (world_with "logo.png" (File true (Encoded PNG img)))
              true PNG img) as (w3 & _ & Hrun).
  - vm_compute. reflexivity.
  - done.
  - intros t _. simpl. rewrite Hres. by eexists.
  - vm_compute. reflexivity.
  - eauto.
Qed.

Section Again.
Context `{PillowCore}.
Variable img : image.

(** On a target that is already done, the loop body rewrites the same icon
    and leaves the file system as it was. *)
Lemma resize_one_again t fs log :
  target_done img t fs ->
  resize_one img t (World fs log) = (Return tt, World fs (log ++ trace_one t)).
Proof.
  intros (d & Hd & Hout & Hdir & Hhead & Hm). rewrite resize_one_eq.
  rewrite (bind_return _ _ _ _ _
             (os_makedirs_again (folder_path_of t.1) (World fs log) Hdir Hhead)).
  unfold Image_resize, bind at 1, bind at 1, emit at 1. rewrite Hd.
  unfold ret at 1. cbn [w_fs w_log].
  erewrite bind_return; cycle 1.
  { apply Image_save_ok; [done|]. left. cbn [w_fs]. fold (output_key t). eauto. }
  unfold print, emit. cbn [w_fs w_log]. fold (output_key t).
  rewrite (insert_id _ _ _ Hout). unfold trace_one. by rewrite <- !app_assoc.
Qed.

Lemma for_each_resize_again l : forall fs log,
  Forall (fun t => target_done img t fs) l ->
  for_each l (resize_one img) (World fs log)
  = (Return tt, World fs (log ++ flat_map trace_one l)).
Proof.
  induction l as [|t l IH]; intros fs log Hall.
  { cbn. by rewrite app_nil_r. }
  apply Forall_cons in Hall as [Ht Hall]. cbn [for_each flat_map].
  rewrite (bind_return _ _ _ _ _ (resize_one_again t fs log Ht)).
  rewrite IH by done. by rewrite <- app_assoc.
Qed.

End Again.

#[local] Transparent components.

(** Something at [logo.png] that is no image makes the script return
    [False]. *)
Lemma resize_logo_not_image `{PillowCore} w :
  (forall rw fmt img, w_fs w !! logo_key <> Some (File rw (Encoded fmt img))) ->
  exists w', resize_logo w = (Return false, w').
Proof.
  intros Hno. destruct (w_fs w !! logo_key) as [[rw [fmt img|]|rw]|] eqn:Hlogo.
  - by destruct (Hno rw fmt img).
  - rewrite resize_logo_present by (by rewrite Hlogo).
    unfold try_except, resize_logo_try.
    unfold Image_open, bind at 1, bind at 1, emit at 1, bind at 1, get_fs at 1.
    cbn [w_fs w_log]. rewrite Hlogo. unfold raise at 1. eauto.
  - rewrite resize_logo_present by (by rewrite Hlogo).
    unfold try_except, resize_logo_try.
    unfold Image_open, bind at 1, bind at 1, emit at 1, bind at 1, get_fs at 1.
    cbn [w_fs w_log]. rewrite Hlogo. unfold raise at 1. eauto.
  - rewrite resize_logo_missing by done. eauto.
Qed.

Lemma logo_not_output : logo_key ∉ output_key <$> densities.
Proof. compute_done. Qed.




(** ** The Alpha-Stripper *)

(** *** Blending *)

Lemma DIV255_exact x : 0 <= x <= 255 -> DIV255 (x * 255) = x.
Proof.
  intros Hx. unfold DIV255. cbv zeta. rewrite !Z.shiftr_div_pow2 by lia.
  change (2 ^ 8) with 256.
  assert (H1 : (x * 255 + 128) / 256 = if decide (x <= 128) then x else x - 1).
  { case_decide; symmetry; apply Z.div_unique with (r := if decide (x <= 128) then 128 - x else 384 - x);
      case_decide; lia. }
  rewrite H1. case_decide; symmetry.
  - apply Z.div_unique with (r := 128); lia.
  - apply Z.div_unique with (r := 127); lia.
Qed.

Lemma land_255 x : 0 <= x <= 255 -> Z.land x 255 = x.
Proof.
  intros Hx. change 255 with (Z.ones 8). rewrite Z.land_ones by lia.
  apply Z.mod_small. change (2 ^ 8) with 256. lia.
Qed.

(** A fully opaque matte lets the source through. *)
Lemma BLEND_opaque o i : 0 <= i <= 255 -> BLEND 255 o i = i.
Proof.
  intros Hi. unfold BLEND.
  replace (o * (255 - 255) + i * 255) with (i * 255) by lia.
  by rewrite DIV255_exact, land_255.
Qed.

(** A fully transparent matte keeps the destination. *)
Lemma BLEND_transparent o i : 0 <= o <= 255 -> BLEND 0 o i = o.
Proof.
  intros Ho. unfold BLEND.
  replace (o * (255 - 0) + i * 0) with (o * 255) by lia.
  by rewrite DIV255_exact, land_255.
Qed.

(** *** The image the script saves *)

Section Flatten.
Context `{PillowCore}.

Lemma remove_alpha_RGBA sz data w :
  remove_alpha (Image "RGBA" sz data) w
  = (Return (Image "RGB" sz
       (zip_with (fun out ia =>
                    unpack "RGB" (paste_mask_L (storage "RGB" out)
                                    (storage "RGBA" ia.1) (nth 0 ia.2 0)))
          (replicate (Z.to_nat (sz.1 * sz.2)) [255; 255; 255])
          (zip data (map (fun px => [nth 3 px 0]) data)))), w).
Proof.
  unfold remove_alpha, Image_split, Image_paste, Image_new.
  cbn [im_mode im_size im_data].
  rewrite (bool_decide_true ("RGBA" ∈ ["RGBA"; "LA"])) by compute_done.
  rewrite (bool_decide_true ("RGBA" = "RGBA")) by done.
  change (mode_bands "RGBA") with 4%nat. cbn [seq map last].
  cbn [im_mode im_size im_data].
  rewrite (bool_decide_true ("RGB" = "RGB")) by done.
  rewrite (bool_decide_true ("RGBA" ∈ ["LA"; "RGBA"; "RGBa"])) by compute_done.
  rewrite andb_false_r. unfold bind, ret. cbn [im_mode im_size im_data].
  rewrite (bool_decide_true (sz = sz)) by done.
  rewrite (bool_decide_true ("L" = "L")) by done.
  reflexivity.
Qed.

Lemma remove_alpha_LA sz data w :
  remove_alpha (Image "LA" sz data) w
  = (Return (Image "RGB" sz
       (map (fun px => unpack "RGB" (storage "LA" px)) data)), w).
Proof.
  unfold remove_alpha, Image_paste, Image_new.
  cbn [im_mode im_size im_data].
  rewrite (bool_decide_true ("LA" ∈ ["RGBA"; "LA"])) by compute_done.
  rewrite (bool_decide_false ("LA" = "RGBA")) by done.
  rewrite (bool_decide_true ("RGB" = "RGB")) by done.
  rewrite (bool_decide_true ("LA" ∈ ["LA"; "RGBA"; "RGBa"])) by compute_done.
  rewrite andb_false_r. unfold bind, ret. cbn [im_mode im_size im_data].
  rewrite (bool_decide_true (sz = sz)) by done.
  reflexivity.
Qed.

(** Whatever the input, [remove_alpha] touches neither the file system nor
    the log, and what it returns is ['RGB'] and of the size of the input. *)
Lemma remove_alpha_inv img w r w' :
  remove_alpha img w = (r, w') ->
  w' = w
  /\ (forall out, r = Return out -> im_mode out = "RGB" /\ im_size out = im_size img).
Proof.
  destruct img as [m sz data]. intros Hrun.
  destruct (decide (m = "RGBA")) as [->|Hrgba].
  { rewrite remove_alpha_RGBA in Hrun. injection Hrun as <- <-.
    split; [done|]. by intros out [= <-]. }
  destruct (decide (m = "LA")) as [->|Hla].
  { rewrite remove_alpha_LA in Hrun. injection Hrun as <- <-.
    split; [done|]. by intros out [= <-]. }
  unfold remove_alpha in Hrun. cbn [im_mode im_size im_data] in Hrun.
  rewrite bool_decide_false in Hrun.
  2:{ rewrite !elem_of_cons, elem_of_nil. intros [? | [? | []]]; done. }
  case_bool_decide as Hrgb.
  - unfold Image_convert in Hrun. cbn [im_mode im_size] in Hrun.
    rewrite bool_decide_false in Hrun by done.
    destruct (convert_core "RGB" (Image m sz data)); inversion Hrun; subst.
    + split; [done|]. by intros out [= <-].
    + by split.
  - assert (m = "RGB") as -> by (by destruct (decide (m = "RGB")); [| destruct Hrgb]).
    inversion Hrun; subst. split; [done|]. by intros out [= <-].
Qed.

End Flatten.

Section Stripper.
Context `{PillowCore}.

(** An ['RGBA'] pixel inside the frame is blended over white under its own
    alpha: white where it is transparent, its own colour where it is
    opaque. *)
Lemma remove_alpha_RGBA_pixel sz data w i r g b a :
  data !! i = Some [r; g; b; a] ->
  (i < Z.to_nat (sz.1 * sz.2))%nat ->
  exists out,
    remove_alpha (Image "RGBA" sz data) w = (Return out, w)
    /\ im_data out !! i = Some [BLEND a 255 r; BLEND a 255 g; BLEND a 255 b]
    /\ (a = 0 -> im_data out !! i = Some [255; 255; 255])
    /\ (a = 255 -> 0 <= r <= 255 -> 0 <= g <= 255 -> 0 <= b <= 255 ->
        im_data out !! i = Some [r; g; b]).
Proof.
  intros Hpx Hi. eexists. split; [apply remove_alpha_RGBA|].
  cbn [im_data].
  assert (Hout : zip_with
            (fun out ia => unpack "RGB" (paste_mask_L (storage "RGB" out)
                                           (storage "RGBA" ia.1) (nth 0 ia.2 0)))
            (replicate (Z.to_nat (sz.1 * sz.2)) [255; 255; 255])
            (zip data (map (fun px => [nth 3 px 0]) data)) !! i
          = Some [BLEND a 255 r; BLEND a 255 g; BLEND a 255 b]).
  { unfold pixel in *.
    rewrite lookup_zip_with, lookup_replicate_2 by done. cbn [mbind option_bind].
    rewrite lookup_zip_with, Hpx. cbn [mbind option_bind].
    change (map (fun px : list Z => [nth 3 px 0]) data)
      with ((fun px : list Z => [nth 3 px 0]) <$> data).
    rewrite list_lookup_fmap, Hpx. reflexivity. }
  split; [done|]. split.
  - intros ->. rewrite Hout. by rewrite !BLEND_transparent.
  - intros -> Hr Hg Hb. rewrite Hout. by rewrite !BLEND_opaque.
Qed.

(** An ['LA'] pixel is pasted without a matte: the result is its grey
    value, whatever its alpha. *)
Lemma remove_alpha_LA_pixel sz data w i l a :
  data !! i = Some [l; a] ->
  exists out,
    remove_alpha (Image "LA" sz data) w = (Return out, w)
    /\ im_data out !! i = Some [l; l; l].
Proof.
  intros Hpx. eexists. split; [apply remove_alpha_LA|]. cbn [im_data].
  unfold pixel in *. change (map ?f data) with (f <$> data).
  rewrite list_lookup_fmap, Hpx. reflexivity.
Qed.

(** The script when there is nothing at the icon path. *)
Lemma fix_icon_missing w :
  w_fs w !! icon_key = None ->
  fix_icon_transparency w = (Return tt, World (w_fs w) (w_log w ++ [icon_missing])).
Proof.
  intros Hno. unfold fix_icon_transparency.
  unfold bind at 1. rewrite os_path_exists_eq, Hno.
  by rewrite bool_decide_false by (by intros [? ?]).
Qed.

(** The script after the existence check. *)
Lemma fix_icon_present w :
  is_Some (w_fs w !! icon_key) ->
  fix_icon_transparency w
  = (img <- Image_open icon_path ;;
     img <- remove_alpha img ;;
     Image_save img icon_path PNG ;;;
     print ("✅ Fixed transparency in " +:+ icon_path)) w.
Proof.
  intros Hyes. unfold fix_icon_transparency.
  unfold bind at 1. rewrite os_path_exists_eq.
  by rewrite bool_decide_true.
Qed.

(** A run of the script that returns: the file decoded, the image to save
    was built, and the save put it, as PNG, where the file was. *)
Lemma fix_icon_completed w w' :
  is_Some (w_fs w !! icon_key) ->
  fix_icon_transparency w = (Return tt, w') ->
  exists rw fmt img out,
    w_fs w !! icon_key = Some (File rw (Encoded fmt img))
    /\ remove_alpha img (World (w_fs w) (w_log w ++ [EvOpen icon_path]))
       = (Return out, World (w_fs w) (w_log w ++ [EvOpen icon_path]))
    /\ im_mode out = "RGB" /\ im_size out = im_size img
    /\ w_fs w' = <[icon_key := File true (Encoded PNG out)]> (w_fs w)
    /\ w_log w' = w_log w ++ [EvOpen icon_path; EvSave icon_path PNG; icon_fixed].
Proof.
  intros Hyes Hrun. rewrite fix_icon_present in Hrun by done.
  bind_split Hrun as img w1 Hopen.
  apply Image_open_inv in Hopen as (Hfs1 & Hlog1 & Himg).
  destruct (Himg _ eq_refl) as (rw & fmt & Hicon).
  bind_split Hrun as out w2 Hflat.
  pose proof Hflat as Hflat'.
  apply remove_alpha_inv in Hflat' as (-> & Hout).
  destruct (Hout _ eq_refl) as [Hmode Hsize].
  bind_split Hrun as u w3 Hsave.
  apply Image_save_inv in Hsave as (Hlog3 & _ & Hret).
  destruct (Hret eq_refl) as (Hfs3 & _ & _).
  unfold print, emit in Hrun. injection Hrun as <-. cbn [w_fs w_log].
  exists rw, fmt, img, out. split; [done|]. split.
  { destruct w1 as [fs1 log1]. cbn in *. by subst. }
  repeat split; try done.
  - rewrite Hfs3, Hfs1. done.
  - rewrite Hlog3, Hlog1. by rewrite <- !app_assoc.
Qed.

End Stripper.

(** * The claims *)

(** C1, at an ['LA'] icon.  The icon [sample_la] has an opaque pixel of
    grey 10 and a fully transparent pixel of grey 0.  The script builds the
    white canvas, but pastes the ['LA'] image onto it without a matte: the
    transparent pixel comes out black, [[0; 0; 0]], not white. *)
Theorem fix_icon_LA_transparent_pixel_not_white `{PillowCore} :
  let w := world_with icon_path (File true (Encoded PNG sample_la)) in
  im_data sample_la !! 1%nat = Some [0; 0]
  /\ (fix_icon_transparency w).1 = Return tt
  /\ w_fs (fix_icon_transparency w).2 !! icon_key
     = Some (File true (Encoded PNG (Image "RGB" (2, 1) [[10; 10; 10]; [0; 0; 0]])))
  /\ [0; 0; 0] <> [255; 255; 255].
Proof. vm_compute. by repeat split. Qed.

(** C2. For a source image at [logo.png] that Pillow can resize and write as
    PNG, in a working directory that does not obstruct the output paths,
    [resize_logo] returns [True]; each of the five targets of [densities]
    then holds at [android/app/src/main/res/<folder>/ic_launcher.png] a PNG
    of exactly [size] by [size] pixels (48, 72, 96, 144, 192), resampled
    from the source with the Lanczos filter whatever the source's own
    dimensions; the five paths are distinct, and nothing else in the file
    system has changed except for directories created on the way. *)
Theorem resize_logo_five_icons `{PillowCore} w rw fmt img :
  w_fs w !! logo_key = Some (File rw (Encoded fmt img)) ->
  im_mode img ∈ save_modes PNG ->
  (forall t, t ∈ densities -> is_Some (resample_core LANCZOS img (t.2, t.2))) ->
  ready densities (w_fs w) = true ->
  exists w',
    resize_logo w = (Return true, w')
    /\ (forall folder size, (folder, size) ∈ densities ->
        exists d,
          resample_core LANCZOS img (size, size) = Some d
          /\ w_fs w' !! components ("android/app/src/main/res/" +:+ folder
                                    +:+ "/ic_launcher.png")
             = Some (File true (Encoded PNG (Image (im_mode img) (size, size) d))))
    /\ snd <$> densities = [48; 72; 96; 144; 192]
    /\ length (output_key <$> densities) = 5%nat
    /\ NoDup (output_key <$> densities)
    /\ (forall k, w_fs w' !! k <> w_fs w !! k ->
        k ∈ output_key <$> densities \/ w_fs w' !! k = Some (Dir true))
    /\ w_log w' = w_log w ++ header img ++ flat_map trace_one densities ++ footer.
Proof.
  intros Hlogo Hm Hres Hready.
  destruct (resize_logo_ready w rw fmt img Hlogo Hm Hres Hready)
    as (w3 & Hloop & ->).
  apply (for_each_resize_inv img _ densities_ok) in Hloop
    as (Ht & done & rest & Hsplit & Hdone & Hcase). cbn [w_fs w_log] in *.
  destruct Hcase as [(_ & -> & Hlog) | (? & ? & ? & ? & ? & _)]; [| done].
  rewrite app_nil_r in Hsplit. subst done.
  eexists. split; [reflexivity|]. cbn [w_fs w_log].
  split; [| split; [done | split; [done | split; [| split]]]].
  - intros folder size Hin. rewrite Forall_forall in Hdone.
    destruct (Hdone _ Hin) as (d & Hd & Hout & _). by exists d.
  - destruct densities_ok as (_ & _ & Hnd). exact Hnd.
  - intros k Hk. destruct (Ht k) as [E | [Ho | (_ & D & _)]]; [done | by left | by right].
  - rewrite Hlog. by rewrite <- !app_assoc.
Qed.

(** A 2x1 (non-square) ['RGBA'] logo in an otherwise empty working
    directory. *)
Lemma resize_logo_five_icons_witness :
  exists w',
    @resize_logo nearest_core (world_with "logo.png" (File true (Encoded PNG sample_rgba)))
    = (Return true, w')
    /\ (forall folder size, (folder, size) ∈ densities ->
        exists d,
          @resample_core nearest_core LANCZOS sample_rgba (size, size) = Some d
          /\ w_fs w' !! components ("android/app/src/main/res/" +:+ folder
                                    +:+ "/ic_launcher.png")
             = Some (File true (Encoded PNG (Image "RGBA" (size, size) d))))
    /\ snd <$> densities = [48; 72; 96; 144; 192]
    /\ length (output_key <$> densities) = 5%nat
    /\ NoDup (output_key <$> densities)
    /\ (forall k, w_fs w' !! k
                  <> w_fs (world_with "logo.png" (File true (Encoded PNG sample_rgba))) !! k ->
        k ∈ output_key <$> densities \/ w_fs w' !! k = Some (Dir true))
    /\ w_log w' = [] ++ header sample_rgba ++ flat_map trace_one densities ++ footer.
Proof.
  apply (@resize_logo_five_icons nearest_core
           (world_with "logo.png" (File true (Encoded PNG sample_rgba)))
           true PNG sample_rgba).
  - vm_compute. reflexivity.
  - compute_done.
  - intros t _. simpl. by eexists.
  - vm_compute. reflexivity.
Defined.

(** C3. Whatever the [try] body of [resize_logo] raises, in decoding or in
    the loop (directory creation, resizing, writing), the script returns
    [False] after logging the error text.  When the failure comes after the
    decoding, the targets split into those completed and the rest; the first
    of the rest raised at its first, second or third call ([makedirs],
    [resize], [save]), and the icons of the completed targets are still in
    the file system the script leaves behind. *)
Theorem resize_logo_failure_is_False_and_keeps_outputs `{PillowCore} w e w1 :
  is_Some (w_fs w !! logo_key) ->
  resize_logo_try (World (w_fs w) (w_log w ++ [banner])) = (Raise e, w1) ->
  resize_logo w = (Return false, World (w_fs w1) (w_log w1 ++ [error_line e]))
  /\ (forall rw fmt img,
      w_fs w !! logo_key = Some (File rw (Encoded fmt img)) ->
      exists done t rest j,
        densities = done ++ t :: rest
        /\ (1 <= j <= 3)%nat
        /\ w_log w1 = w_log w ++ header img ++ flat_map trace_one done
                      ++ take j (trace_one t)
        /\ Forall (fun t' =>
                     exists d,
                       w_fs w1 !! output_key t'
                       = Some (File true (Encoded PNG
                                 (Image (im_mode img) (t'.2, t'.2) d))))
                  done).
Proof.
  intros Hyes Htry. split.
  - rewrite resize_logo_present by done. unfold try_except. rewrite Htry.
    by unfold print, bind, emit, ret, error_line.
  - intros rw fmt img Hlogo. unfold resize_logo_try in Htry.
    rewrite (bind_return _ _ _ _ _
               (Image_open_ok "logo.png" (World (w_fs w) (w_log w ++ [banner]))
                  rw fmt img Hlogo)) in Htry.
    unfold print at 1 in Htry. unfold bind at 1, emit at 1 in Htry.
    cbn [w_fs w_log] in Htry.
    replace (((w_log w ++ [banner]) ++ [EvOpen "logo.png"]) ++
             [EvPrint ("📱 Original logo size: " +:+ show_size (im_size img))])
      with (w_log w ++ header img) in Htry
      by (unfold header; by rewrite <- !app_assoc).
    apply bind_inv in Htry as [([] & w3 & Hloop & Htry) | (e' & Htry & [= ->])].
    { (* the loop returned: nothing after it raises *)
      unfold print, bind, emit, ret in Htry. by inversion Htry. }
    apply (for_each_resize_inv img _ densities_ok) in Htry
      as (_ & done & rest & Hsplit & Hdone & Hcase). cbn [w_fs w_log] in *.
    destruct Hcase as [(? & _) | (e0 & t & rest' & j & _ & -> & Hj & Hlog)]; [done|].
    exists done, t, rest', j. repeat split; try done; try lia.
    + rewrite Hlog. by rewrite <- !app_assoc.
    + eapply Forall_impl; [exact Hdone|]. intros t' (d & _ & Hout & _). eauto.
Qed.

(** In [world_blocked] the script returns [False] with the
    [FileExistsError] of [makedirs] on [mipmap-hdpi]. *)
Lemma resize_logo_failure_is_False_and_keeps_outputs_witness :
  let e := os_error FileExistsError "[Errno 17] File exists"
             "android/app/src/main/res/mipmap-hdpi" in
  let w1 := (@resize_logo_try nearest_core
               (World (w_fs world_blocked) (w_log world_blocked ++ [banner]))).2 in
  @resize_logo nearest_core world_blocked
  = (Return false, World (w_fs w1) (w_log w1 ++ [error_line e]))
  /\ (forall rw fmt img,
      w_fs world_blocked !! logo_key = Some (File rw (Encoded fmt img)) ->
      exists done t rest j,
        densities = done ++ t :: rest
        /\ (1 <= j <= 3)%nat
        /\ w_log w1 = w_log world_blocked ++ header img ++ flat_map trace_one done
                      ++ take j (trace_one t)
        /\ Forall (fun t' =>
                     exists d,
                       w_fs w1 !! output_key t'
                       = Some (File true (Encoded PNG
                                 (Image (im_mode img) (t'.2, t'.2) d))))
                  done).
Proof.
  intros e w1.
  apply (@resize_logo_failure_is_False_and_keeps_outputs nearest_core world_blocked).
  - vm_compute. by eexists.
  - apply run_outcome. vm_compute. reflexivity.
Defined.

(** C4. With nothing at its input path, each script stops without raising
    and leaves the file system as it is: [fix_icon_transparency] only prints
    the not-found line (no [Image.open], no [save]), and [resize_logo]
    returns [False] after its banner and its not-found line (no [makedirs],
    no [save]). *)
Theorem missing_input_changes_nothing `{PillowCore} w1 w2 :
  w_fs w1 !! icon_key = None ->
  w_fs w2 !! logo_key = None ->
  fix_icon_transparency w1
  = (Return tt, World (w_fs w1) (w_log w1 ++ [icon_missing]))
  /\ resize_logo w2
     = (Return false, World (w_fs w2) (w_log w2 ++ [banner; logo_missing])).
Proof.
  intros Hicon Hlogo. split.
  - by apply fix_icon_missing.
  - by apply resize_logo_missing.
Qed.

(** Both scripts in the empty working directory. *)
Lemma missing_input_changes_nothing_witness :
  @fix_icon_transparency nearest_core world_empty
  = (Return tt, World (w_fs world_empty) (w_log world_empty ++ [icon_missing]))
  /\ @resize_logo nearest_core world_empty
     = (Return false,
        World (w_fs world_empty) (w_log world_empty ++ [banner; logo_missing])).
Proof.
  apply (@missing_input_changes_nothing nearest_core world_empty world_empty).
  - vm_compute. reflexivity.
  - vm_compute. reflexivity.
Defined.

(** C5. When the icon file holds an image whose mode has an alpha band and
    [fix_icon_transparency] runs to completion, the file it leaves at the
    icon path decodes to an image whose mode (['RGB']) has no alpha band
    and whose size is the size of the input. *)
Theorem fix_icon_output_has_no_alpha `{PillowCore} w rw fmt img w' :
  w_fs w !! icon_key = Some (File rw (Encoded fmt img)) ->
  has_alpha (im_mode img) = true ->
  fix_icon_transparency w = (Return tt, w') ->
  exists out log,
    Image_open icon_path w' = (Return out, World (w_fs w') log)
    /\ has_alpha (im_mode out) = false
    /\ im_size out = im_size img.
Proof.
  intros Hicon _ Hrun.
  destruct (fix_icon_completed w w') as
    (rw' & fmt' & img' & out & Hicon' & _ & Hmode & Hsize & Hfs & _);
    [by rewrite Hicon | done |].
  rewrite Hicon in Hicon'. injection Hicon' as <- <- <-.
  exists out. eexists. split.
  - eapply Image_open_ok. rewrite Hfs. apply lookup_insert_eq.
  - by rewrite Hmode.
Qed.

(** The 2x1 ['RGBA'] icon [sample_rgba]. *)
Lemma fix_icon_output_has_no_alpha_witness :
  let w := world_with icon_path (File true (Encoded PNG sample_rgba)) in
  exists out log,
    Image_open icon_path (@fix_icon_transparency nearest_core w).2
    = (Return out, World (w_fs (@fix_icon_transparency nearest_core w).2) log)
    /\ has_alpha (im_mode out) = false
    /\ im_size out = (2, 1).
Proof.
  intros w.
  apply (@fix_icon_output_has_no_alpha nearest_core w true PNG sample_rgba).
  - vm_compute. reflexivity.
  - vm_compute. reflexivity.
  - apply run_outcome. vm_compute. reflexivity.
Defined.

(** C6, as stated, at a JPEG.  An ['RGB'] JPEG at the icon path is
    processed to completion, and the file left at the path is a PNG: the
    format of the input is not kept. *)
Lemma fix_icon_does_not_keep_format :
  w_fs world_jpeg !! icon_key
  = Some (File true (Encoded JPEG (Image "RGB" (1, 1) [[1; 2; 3]])))
  /\ (@fix_icon_transparency nearest_core world_jpeg).1 = Return tt
  /\ ~ (exists rw out,
          w_fs (@fix_icon_transparency nearest_core world_jpeg).2 !! icon_key
          = Some (File rw (Encoded JPEG out))).
Proof.
  split; [by vm_compute | split; [by vm_compute |]].
  intros (rw & out & Hout). vm_compute in Hout. discriminate Hout.
Qed.

(** C6, amended.  When there is a file at the icon path and
    [fix_icon_transparency] runs to completion, the file was an image, and
    the image built from it is written back to the same path and to no
    other, over the original, by a [save] with format PNG: the file left
    behind is a PNG whatever the format of the input, so the format is the
    input's when the input was a PNG. *)
Theorem fix_icon_writes_png_in_place `{PillowCore} w w' :
  is_Some (w_fs w !! icon_key) ->
  fix_icon_transparency w = (Return tt, w') ->
  exists rw fmt img out,
    w_fs w !! icon_key = Some (File rw (Encoded fmt img))
    /\ remove_alpha img (World (w_fs w) (w_log w ++ [EvOpen icon_path]))
       = (Return out, World (w_fs w) (w_log w ++ [EvOpen icon_path]))
    /\ w_fs w' !! icon_key = Some (File true (Encoded PNG out))
    /\ (fmt = PNG -> w_fs w' !! icon_key = Some (File true (Encoded fmt out)))
    /\ (forall k, k <> icon_key -> w_fs w' !! k = w_fs w !! k)
    /\ w_log w' = w_log w ++ [EvOpen icon_path; EvSave icon_path PNG; icon_fixed].
Proof.
  intros Hyes Hrun.
  destruct (fix_icon_completed w w' Hyes Hrun) as
    (rw & fmt & img & out & Hicon & Hflat & _ & _ & Hfs & Hlog).
  exists rw, fmt, img, out. rewrite Hfs.
  split; [done|]. split; [done|]. split; [apply lookup_insert_eq|].
  split; [by intros ->; apply lookup_insert_eq|]. split; [|done].
  intros k Hk. by rewrite lookup_insert_ne.
Qed.

(** The JPEG of [world_jpeg]. *)
Lemma fix_icon_writes_png_in_place_witness :
  let w' := (@fix_icon_transparency nearest_core world_jpeg).2 in
  exists rw fmt img out,
    w_fs world_jpeg !! icon_key = Some (File rw (Encoded fmt img))
    /\ @remove_alpha nearest_core img
         (World (w_fs world_jpeg) (w_log world_jpeg ++ [EvOpen icon_path]))
       = (Return out, World (w_fs world_jpeg) (w_log world_jpeg ++ [EvOpen icon_path]))
    /\ w_fs w' !! icon_key = Some (File true (Encoded PNG out))
    /\ (fmt = PNG -> w_fs w' !! icon_key = Some (File true (Encoded fmt out)))
    /\ (forall k, k <> icon_key -> w_fs w' !! k = w_fs world_jpeg !! k)
    /\ w_log w' = w_log world_jpeg ++ [EvOpen icon_path; EvSave icon_path PNG; icon_fixed].
Proof.
  intros w'. apply (@fix_icon_writes_png_in_place nearest_core world_jpeg w').
  - vm_compute. by eexists.
  - apply run_outcome. vm_compute. reflexivity.
Defined.

(** C7. [fix_icon_transparency] has no handler: once the existence check
    has passed, an exception raised by the decoding, by the construction of
    the image to save, or by the save is the outcome of the script, in the
    world in which it was raised. *)
Theorem fix_icon_errors_propagate `{PillowCore} w e w' :
  is_Some (w_fs w !! icon_key) ->
  Image_open icon_path w = (Raise e, w')
  \/ (exists img w1,
        Image_open icon_path w = (Return img, w1)
        /\ remove_alpha img w1 = (Raise e, w'))
  \/ (exists img w1 out w2,
        Image_open icon_path w = (Return img, w1)
        /\ remove_alpha img w1 = (Return out, w2)
        /\ Image_save out icon_path PNG w2 = (Raise e, w')) ->
  fix_icon_transparency w = (Raise e, w').
Proof.
  intros Hyes Hstep. rewrite fix_icon_present by done.
  destruct Hstep as [Hopen | [(img & w1 & Hopen & Hflat)
                             | (img & w1 & out & w2 & Hopen & Hflat & Hsave)]].
  - by rewrite (bind_raise _ _ _ _ _ Hopen).
  - rewrite (bind_return _ _ _ _ _ Hopen). by rewrite (bind_raise _ _ _ _ _ Hflat).
  - rewrite (bind_return _ _ _ _ _ Hopen), (bind_return _ _ _ _ _ Hflat).
    by rewrite (bind_raise _ _ _ _ _ Hsave).
Qed.

(** One world for each step: [Image.open] raises on [world_junk],
    [convert] on [world_lab], [save] on [world_readonly]. *)
Lemma fix_icon_errors_propagate_witness :
  @fix_icon_transparency nearest_core world_junk
  = (Raise (Exn UnidentifiedImageError
              ("cannot identify image file '" +:+ icon_path +:+ "'")),
     World (w_fs world_junk) [EvOpen icon_path])
  /\ @fix_icon_transparency nearest_core world_lab
     = (Raise (Exn ValueError "conversion from LAB to RGB not supported"),
        World (w_fs world_lab) [EvOpen icon_path])
  /\ @fix_icon_transparency nearest_core world_readonly
     = (Raise (os_error PermissionError "[Errno 13] Permission denied" icon_path),
        World (w_fs world_readonly) [EvOpen icon_path; EvSave icon_path PNG]).
Proof.
  split; [| split].
  - apply (@fix_icon_errors_propagate nearest_core world_junk).
    + vm_compute. by eexists.
    + left. reflexivity.
  - apply (@fix_icon_errors_propagate nearest_core world_lab).
    + vm_compute. by eexists.
    + right; left.
      exists (Image "LAB" (1, 1) [[50; 0; 0]]),
             (World (w_fs world_lab) [EvOpen icon_path]).
      split; reflexivity.
  - apply (@fix_icon_errors_propagate nearest_core world_readonly).
    + vm_compute. by eexists.
    + right; right.
      exists sample_rgba, (World (w_fs world_readonly) [EvOpen icon_path]),
             (Image "RGB" (2, 1) [[10; 20; 30]; [255; 255; 255]]),
             (World (w_fs world_readonly) [EvOpen icon_path]).
      split; [| split]; reflexivity.
Defined.

(** C8. A second run of [resize_logo], on the world a successful first run
    left behind, succeeds too; it makes the same calls ([makedirs] on the
    five folders that now exist, the five Lanczos resizes, the five saves)
    and leaves the file system exactly as the first run left it: the same
    five icons with the same content, and no other file or directory. *)
Theorem resize_logo_idempotent `{PillowCore} w w1 :
  resize_logo w = (Return true, w1) ->
  exists rw fmt img,
    w_fs w !! logo_key = Some (File rw (Encoded fmt img))
    /\ w_fs w1 !! logo_key = Some (File rw (Encoded fmt img))
    /\ w_log w1 = w_log w ++ header img ++ flat_map trace_one densities ++ footer
    /\ resize_logo w1
       = (Return true,
          World (w_fs w1)
                (w_log w1 ++ header img ++ flat_map trace_one densities ++ footer)).
Proof.
  intros Hrun.
  destruct (w_fs w !! logo_key) as [[rw [fmt img|]|rw]|] eqn:Hlogo;
    try (destruct (resize_logo_not_image w) as (w' & Hrun');
         [intros ? ? ?; by rewrite Hlogo | congruence]).
  destruct (resize_logo_decoded w rw fmt img Hlogo)
    as (b & w2 & Hrun' & Ht & done & rest & Hsplit & Hdone & Hcase).
  rewrite Hrun in Hrun'. injection Hrun' as <- <-.
  destruct Hcase as [(_ & -> & Hlog) | (? & ? & ? & ? & ? & _)]; [| done].
  rewrite app_nil_r in Hsplit. subst done.
  assert (Hlogo1 : w_fs w1 !! logo_key = Some (File rw (Encoded fmt img))).
  { destruct (Ht logo_key) as [E | [Ho | (N & _)]]; [congruence | | congruence].
    by destruct logo_not_output. }
  exists rw, fmt, img. repeat split; try done.
  rewrite (resize_logo_via_loop w1 rw fmt img _ _ Hlogo1
             (for_each_resize_again img densities _ _ Hdone)).
  cbn [w_fs w_log]. by rewrite <- !app_assoc.
Qed.

(** Two runs from a working directory that holds only the logo. *)
Lemma resize_logo_idempotent_witness :
  let w := world_with "logo.png" (File true (Encoded PNG sample_rgba)) in
  let w1 := (@resize_logo nearest_core w).2 in
  exists rw fmt img,
    w_fs w !! logo_key = Some (File rw (Encoded fmt img))
    /\ w_fs w1 !! logo_key = Some (File rw (Encoded fmt img))
    /\ w_log w1 = w_log w ++ header img ++ flat_map trace_one densities ++ footer
    /\ @resize_logo nearest_core w1
       = (Return true,
          World (w_fs w1)
                (w_log w1 ++ header img ++ flat_map trace_one densities ++ footer)).
Proof.
  intros w w1. apply (@resize_logo_idempotent nearest_core w w1).
  subst w1. destruct (sample_logo_succeeds sample_rgba) as (w' & Hrun); [compute_done|].
  subst w. by rewrite Hrun.
Defined.



(** C10. When [resize_logo] succeeds, each of the five icons it has saved
    is an image in the mode of the decoded [logo.png], of the target's
    square size; a source with an alpha band therefore yields five icons
    with an alpha band. *)
Theorem resize_logo_keeps_mode `{PillowCore} w rw fmt img w' :
  w_fs w !! logo_key = Some (File rw (Encoded fmt img)) ->
  resize_logo w = (Return true, w') ->
  forall folder size, (folder, size) ∈ densities ->
    exists out,
      w_fs w' !! components ("android/app/src/main/res/" +:+ folder
                             +:+ "/ic_launcher.png")
      = Some (File true (Encoded PNG out))
      /\ im_mode out = im_mode img
      /\ has_alpha (im_mode out) = has_alpha (im_mode img)
      /\ im_size out = (size, size).
Proof.
  intros Hlogo Hrun folder size Hin.
  destruct (resize_logo_decoded w rw fmt img Hlogo)
    as (b & w2 & Hrun' & _ & done & rest & Hsplit & Hdone & Hcase).
  rewrite Hrun in Hrun'. injection Hrun' as <- <-.
  destruct Hcase as [(_ & -> & _) | (? & ? & ? & ? & ? & _)]; [| done].
  rewrite app_nil_r in Hsplit. subst done. rewrite Forall_forall in Hdone.
  destruct (Hdone _ Hin) as (d & _ & Hout & _).
  eexists. split; [exact Hout|]. done.
Qed.

(** The five icons made from the ['LA'] logo [sample_la]. *)
Lemma resize_logo_keeps_mode_witness :
  let w' := (@resize_logo nearest_core
               (world_with "logo.png" (File true (Encoded PNG sample_la)))).2 in
  Forall (fun t : string * Z =>
            exists out,
              w_fs w' !! components ("android/app/src/main/res/" +:+ t.1
                                     +:+ "/ic_launcher.png")
              = Some (File true (Encoded PNG out))
              /\ im_mode out = "LA"
              /\ has_alpha (im_mode out) = true
              /\ im_size out = (t.2, t.2))
         densities.
Proof.
  intros w'. apply Forall_forall. intros [folder size] Hin.
  apply (@resize_logo_keeps_mode nearest_core
           (world_with "logo.png" (File true (Encoded PNG sample_la)))
           true PNG sample_la w'); [| | done].
  - vm_compute. reflexivity.
  - destruct (sample_logo_succeeds sample_la) as (w2 & Hrun); [compute_done|].
    subst w'. by rewrite Hrun.
Defined.

(** * Further properties of the two scripts *)

#[local] Opaque components.

Section More.
Context `{PillowCore}.

Lemma remove_alpha_RGB sz data w :
  remove_alpha (Image "RGB" sz data) w = (Return (Image "RGB" sz data), w).
Proof. reflexivity. Qed.

(** The script on a writable image file, given the image it builds. *)
Lemma fix_icon_run w fmt img out :
  w_fs w !! icon_key = Some (File true (Encoded fmt img)) ->
  remove_alpha img (World (w_fs w) (w_log w ++ [EvOpen icon_path]))
  = (Return out, World (w_fs w) (w_log w ++ [EvOpen icon_path])) ->
  fix_icon_transparency w
  = (Return tt,
     World (<[icon_key := File true (Encoded PNG out)]> (w_fs w))
           (w_log w ++ [EvOpen icon_path; EvSave icon_path PNG; icon_fixed])).
Proof.
  intros Hicon Hflat. rewrite fix_icon_present by (by rewrite Hicon).
  rewrite (bind_return _ _ _ _ _ (Image_open_ok icon_path w true fmt img Hicon)).
  rewrite (bind_return _ _ _ _ _ Hflat).
  destruct (remove_alpha_inv _ _ _ _ Hflat) as [_ Hout].
  destruct (Hout _ eq_refl) as [Hmode _].
  erewrite bind_return; cycle 1.
  { apply Image_save_ok.
    - rewrite Hmode. compute_done.
    - left. cbn [w_fs]. eauto. }
  unfold print, emit, icon_fixed. cbn [w_fs w_log]. by rewrite <- !app_assoc.
Qed.

End More.


(** ** Alpha-Stripper: what is written *)

(** X1. On a writable ['RGBA'] icon the script completes, and the image it
    writes has, at every pixel of the frame, the input colour blended over
    white under the pixel's own alpha: white where the pixel is fully
    transparent, the input colour where it is fully opaque. *)
Theorem fix_icon_RGBA_over_white `{PillowCore} w fmt sz data i r g b a :
  w_fs w !! icon_key = Some (File true (Encoded fmt (Image "RGBA" sz data))) ->
  data !! i = Some [r; g; b; a] ->
  (i < Z.to_nat (sz.1 * sz.2))%nat ->
  exists out,
    fix_icon_transparency w
    = (Return tt,
       World (<[icon_key := File true (Encoded PNG out)]> (w_fs w))
             (w_log w ++ [EvOpen icon_path; EvSave icon_path PNG; icon_fixed]))
    /\ im_mode out = "RGB" /\ im_size out = sz
    /\ im_data out !! i = Some [BLEND a 255 r; BLEND a 255 g; BLEND a 255 b]
    /\ (a = 0 -> im_data out !! i = Some [255; 255; 255])
    /\ (a = 255 -> is_byte r -> is_byte g -> is_byte b ->
        im_data out !! i = Some [r; g; b]).
Proof.
  intros Hicon Hpx Hi.
  destruct (remove_alpha_RGBA_pixel sz data
              (World (w_fs w) (w_log w ++ [EvOpen icon_path])) i r g b a Hpx Hi)
    as (out & Hflat & Hblend & Hclear & Hopaque).
  exists out. split; [by eapply fix_icon_run|].
  destruct (remove_alpha_inv _ _ _ _ Hflat) as [_ Hout].
  destruct (Hout _ eq_refl) as [Hmode Hsize]. by repeat split.
Qed.

(** The transparent pixel of [sample_rgba]. *)
Lemma fix_icon_RGBA_over_white_witness :
  exists out,
    @fix_icon_transparency nearest_core
      (world_with icon_path (File true (Encoded PNG sample_rgba)))
    = (Return tt,
       World (<[icon_key := File true (Encoded PNG out)]>
                (w_fs (world_with icon_path (File true (Encoded PNG sample_rgba)))))
             (w_log (world_with icon_path (File true (Encoded PNG sample_rgba)))
              ++ [EvOpen icon_path; EvSave icon_path PNG; icon_fixed]))
    /\ im_mode out = "RGB" /\ im_size out = (2, 1)
    /\ im_data out !! 1%nat = Some [BLEND 0 255 40; BLEND 0 255 50; BLEND 0 255 60]
    /\ (0 = 0 -> im_data out !! 1%nat = Some [255; 255; 255])
    /\ (0 = 255 -> is_byte 40 -> is_byte 50 -> is_byte 60 ->
        im_data out !! 1%nat = Some [40; 50; 60]).
Proof.
  apply (@fix_icon_RGBA_over_white nearest_core
           (world_with icon_path (File true (Encoded PNG sample_rgba)))
           PNG (2, 1) [[10; 20; 30; 255]; [40; 50; 60; 0]] 1%nat 40 50 60 0).
  - apply lookup_insert_eq.
  - reflexivity.
  - vm_compute. lia.
Defined.

(** X2. On a writable ['LA'] icon the script completes, and every pixel of
    the image it writes is the grey value of the input pixel on the three
    colour bands, whatever the alpha of that pixel: the alpha band is
    dropped, not composited. *)
Theorem fix_icon_LA_drops_alpha `{PillowCore} w fmt sz data i l a :
  w_fs w !! icon_key = Some (File true (Encoded fmt (Image "LA" sz data))) ->
  data !! i = Some [l; a] ->
  exists out,
    fix_icon_transparency w
    = (Return tt,
       World (<[icon_key := File true (Encoded PNG out)]> (w_fs w))
             (w_log w ++ [EvOpen icon_path; EvSave icon_path PNG; icon_fixed]))
    /\ im_mode out = "RGB" /\ im_size out = sz
    /\ length (im_data out) = length data
    /\ im_data out !! i = Some [l; l; l].
Proof.
  intros Hicon Hpx.
  destruct (remove_alpha_LA_pixel sz data
              (World (w_fs w) (w_log w ++ [EvOpen icon_path])) i l a Hpx)
    as (out & Hflat & Hgrey).
  exists out. split; [by eapply fix_icon_run|].
  pose proof Hflat as Hflat'. rewrite remove_alpha_LA in Hflat'.
  injection Hflat' as <-. cbn [im_mode im_size im_data] in *.
  repeat split; try done. apply length_map.
Qed.

(** The opaque pixel of [sample_la]. *)
Lemma fix_icon_LA_drops_alpha_witness :
  exists out,
    @fix_icon_transparency nearest_core
      (world_with icon_path (File true (Encoded PNG sample_la)))
    = (Return tt,
       World (<[icon_key := File true (Encoded PNG out)]>
                (w_fs (world_with icon_path (File true (Encoded PNG sample_la)))))
             (w_log (world_with icon_path (File true (Encoded PNG sample_la)))
              ++ [EvOpen icon_path; EvSave icon_path PNG; icon_fixed]))
    /\ im_mode out = "RGB" /\ im_size out = (2, 1)
    /\ length (im_data out) = 2%nat
    /\ im_data out !! 0%nat = Some [10; 10; 10].
Proof.
  apply (@fix_icon_LA_drops_alpha nearest_core
           (world_with icon_path (File true (Encoded PNG sample_la)))
           PNG (2, 1) [[10; 255]; [0; 0]] 0%nat 10 255).
  - apply lookup_insert_eq.
  - reflexivity.
Defined.

(** X3. The Alpha-Stripper is idempotent: run again on the world a
    completed run left behind, it completes, saves the image it finds
    unchanged, and leaves the file system as it found it. *)
Theorem fix_icon_idempotent `{PillowCore} w w' :
  is_Some (w_fs w !! icon_key) ->
  fix_icon_transparency w = (Return tt, w') ->
  fix_icon_transparency w'
  = (Return tt,
     World (w_fs w')
           (w_log w' ++ [EvOpen icon_path; EvSave icon_path PNG; icon_fixed])).
Proof.
  intros Hyes Hrun.
  destruct (fix_icon_completed w w' Hyes Hrun) as
    (rw & fmt & img & out & _ & _ & Hmode & _ & Hfs & _).
  assert (Hicon' : w_fs w' !! icon_key = Some (File true (Encoded PNG out))).
  { rewrite Hfs. apply lookup_insert_eq. }
  rewrite (fix_icon_run w' PNG out out Hicon').
  - by rewrite (insert_id _ _ _ Hicon').
  - destruct out as [m sz data]. cbn in Hmode. subst m. apply remove_alpha_RGB.
Qed.

(** Two runs on the ['RGBA'] icon [sample_rgba]. *)
Lemma fix_icon_idempotent_witness :
  let w := world_with icon_path (File true (Encoded PNG sample_rgba)) in
  let w' := (@fix_icon_transparency nearest_core w).2 in
  @fix_icon_transparency nearest_core w'
  = (Return tt,
     World (w_fs w')
           (w_log w' ++ [EvOpen icon_path; EvSave icon_path PNG; icon_fixed])).
Proof.
  intros w w'. apply (@fix_icon_idempotent nearest_core w w').
  - exists (File true (Encoded PNG sample_rgba)). apply lookup_insert_eq.
  - apply run_outcome. vm_compute. reflexivity.
Defined.

(** ** Alpha-Stripper: what is left alone, and well-formed rasters *)

Lemma Image_save_keeps img path fmt w r w' k :
  Image_save img path fmt w = (r, w') ->
  is_Some (w_fs w !! k) -> is_Some (w_fs w' !! k).
Proof.
  intros Hrun Hk.
  destruct (decide (k = components path)) as [->|Hne].
  2:{ apply Image_save_inv in Hrun as (_ & Hframe & _). by rewrite Hframe. }
  destruct w as [fs log]. revert Hrun Hk.
  unfold Image_save, bind, emit, get_fs, set_fs, raise; simpl.
  destruct (fs !! components path) as [[[] c|rw]|] eqn:Hp; simpl;
    [| | | by intros _ [? ?]].
  - case_bool_decide; intros [= <- <-] _; simpl; rewrite lookup_insert_eq; eauto.
  - intros [= <- <-] _. simpl. rewrite Hp. eauto.
  - intros [= <- <-] _. simpl. rewrite Hp. eauto.
Qed.

(** X4. Whatever its outcome, a run of the Alpha-Stripper changes nothing in
    the file system but the icon file, and removes nothing: every path that
    was there is still there. *)
Theorem fix_icon_touches_only_icon `{PillowCore} w :
  let w' := (fix_icon_transparency w).2 in
  (forall k, k <> icon_key -> w_fs w' !! k = w_fs w !! k)
  /\ (forall k, is_Some (w_fs w !! k) -> is_Some (w_fs w' !! k)).
Proof.
  destruct (fix_icon_transparency w) as [r w'] eqn:Hrun. cbn [snd].
  destruct (w_fs w !! icon_key) as [n|] eqn:Hicon.
  2:{ rewrite fix_icon_missing in Hrun by done. injection Hrun as <- <-. done. }
  rewrite fix_icon_present in Hrun by (by rewrite Hicon).
  bind_split Hrun as img w1 Hopen.
  2:{ apply Image_open_inv in Hrun as (-> & _). done. }
  apply Image_open_inv in Hopen as (Hfs1 & _).
  bind_split Hrun as out w2 Hflat.
  2:{ apply remove_alpha_inv in Hrun as (-> & _). by rewrite Hfs1. }
  apply remove_alpha_inv in Hflat as (-> & _).
  assert (Hsave : forall r3 w3, Image_save out icon_path PNG w1 = (r3, w3) ->
            (forall k, k <> icon_key -> w_fs w3 !! k = w_fs w !! k)
            /\ (forall k, is_Some (w_fs w !! k) -> is_Some (w_fs w3 !! k))).
  { intros r3 w3 Hs. rewrite <- Hfs1. split.
    - intros k Hk. apply Image_save_inv in Hs as (_ & Hframe & _). by apply Hframe.
    - intros k Hk. by eapply Image_save_keeps. }
  bind_split Hrun as u w3 Hs.
  - unfold print, emit in Hrun. injection Hrun as <- <-. cbn [w_fs]. eauto.
  - eauto.
Qed.

Lemma BLEND_byte m o i : is_byte (BLEND m o i).
Proof.
  unfold is_byte, BLEND. generalize (DIV255 (o * (255 - m) + i * m)). intros x.
  replace (Z.land x 255) with (x mod 2 ^ 8)
    by (symmetry; apply (Z.land_ones x 8); lia).
  pose proof (Z.mod_pos_bound x (2 ^ 8)). change (2 ^ 8) with 256 in *. lia.
Qed.

Section Rasters.
Context `{PillowCore}.

(** The image built from a well-formed ['RGBA'], ['LA'] or ['RGB'] image is
    a well-formed ['RGB'] image of the same size. *)
Lemma remove_alpha_well_formed img w :
  im_mode img ∈ ["RGBA"; "LA"; "RGB"] ->
  well_formed img ->
  exists out,
    remove_alpha img w = (Return out, w)
    /\ im_mode out = "RGB" /\ im_size out = im_size img
    /\ well_formed out.
Proof.
  destruct img as [m sz data]. unfold well_formed. cbn [im_mode im_size im_data].
  unfold pixel in *. intros Hm [Hlen Hpx].
  rewrite !elem_of_cons, elem_of_nil in Hm.
  destruct Hm as [-> | [-> | [-> | []]]].
  - eexists. split; [apply remove_alpha_RGBA|]. cbn [im_mode im_size im_data].
    split; [done|]. split; [done|]. split.
    + rewrite length_zip_with, length_replicate, length_zip_with.
      change (map ?f data) with (f <$> data). rewrite length_fmap, <- Hlen.
      by rewrite !Nat.min_id.
    + apply Forall_lookup_2. intros i x Hx.
      apply lookup_zip_with_Some in Hx as (white & [px ma] & -> & Hw & Hz).
      apply lookup_replicate in Hw as [-> _].
      apply lookup_zip_with_Some in Hz as (px' & ma' & [= <- <-] & Hd & Hma).
      change (map ?f data) with (f <$> data) in Hma. unfold pixel in *.
      rewrite list_lookup_fmap, Hd in Hma. injection Hma as <-.
      destruct (Forall_lookup_1 _ _ _ _ Hpx Hd) as [Hl _].
      change (mode_bands "RGBA") with 4%nat in Hl.
      destruct px as [|r [|g [|b [|a [|? ?]]]]]; try done.
      split; [done|]. cbn.
      repeat (apply Forall_cons; split; [apply BLEND_byte|]). done.
  - eexists. split; [apply remove_alpha_LA|]. cbn [im_mode im_size im_data].
    split; [done|]. split; [done|]. split.
    + by rewrite length_map.
    + change (map ?f data) with (f <$> data). apply Forall_fmap.
      eapply Forall_impl; [exact Hpx|]. intros px [Hl Hb]. cbn.
      change (mode_bands "LA") with 2%nat in Hl.
      destruct px as [|l [|a [|? ?]]]; try done.
      apply Forall_cons in Hb as [Hb _]. split; [done|].
      cbn. by repeat (apply Forall_cons; split; [done|]).
  - eexists. split; [apply remove_alpha_RGB|]. done.
Qed.

End Rasters.

(** X5. On a writable icon that is a well-formed ['RGBA'], ['LA'] or ['RGB']
    image the script completes, and the image it writes is a well-formed
    ['RGB'] image of the size of the input: one pixel per position, three
    bytes per pixel. *)
Theorem fix_icon_writes_well_formed_RGB `{PillowCore} w fmt img :
  w_fs w !! icon_key = Some (File true (Encoded fmt img)) ->
  im_mode img ∈ ["RGBA"; "LA"; "RGB"] ->
  well_formed img ->
  exists out,
    fix_icon_transparency w
    = (Return tt,
       World (<[icon_key := File true (Encoded PNG out)]> (w_fs w))
             (w_log w ++ [EvOpen icon_path; EvSave icon_path PNG; icon_fixed]))
    /\ im_mode out = "RGB" /\ im_size out = im_size img
    /\ well_formed out.
Proof.
  intros Hicon Hm Hwf.
  destruct (remove_alpha_well_formed img
              (World (w_fs w) (w_log w ++ [EvOpen icon_path])) Hm Hwf)
    as (out & Hflat & Hmode & Hsize & Hwf').
  exists out. split; [by eapply fix_icon_run|]. done.
Qed.

(** The ['RGBA'] icon [sample_rgba]. *)
Lemma fix_icon_writes_well_formed_RGB_witness :
  exists out,
    @fix_icon_transparency nearest_core
      (world_with icon_path (File true (Encoded PNG sample_rgba)))
    = (Return tt,
       World (<[icon_key := File true (Encoded PNG out)]>
                (w_fs (world_with icon_path (File true (Encoded PNG sample_rgba)))))
             (w_log (world_with icon_path (File true (Encoded PNG sample_rgba)))
              ++ [EvOpen icon_path; EvSave icon_path PNG; icon_fixed]))
    /\ im_mode out = "RGB" /\ im_size out = im_size sample_rgba
    /\ well_formed out.
Proof.
  apply (@fix_icon_writes_well_formed_RGB nearest_core
           (world_with icon_path (File true (Encoded PNG sample_rgba)))
           PNG sample_rgba).
  - apply lookup_insert_eq.
  - compute_done.
  - compute_done.
Defined.

(** ** Logo-Resizer: a logo that is no image *)

(** [Image.open] on something that holds no image ends the run before the
    loop. *)
Lemma resize_logo_open_fails `{PillowCore} w n :
  w_fs w !! logo_key = Some n ->
  (forall rw fmt img, n <> File rw (Encoded fmt img)) ->
  exists e,
    exn_cls e ∈ [IsADirectoryError; UnidentifiedImageError]
    /\ resize_logo w
       = (Return false,
          World (w_fs w) (w_log w ++ [banner; EvOpen "logo.png"; error_line e])).
Proof.
  intros Hlogo Hno. rewrite resize_logo_present by (by rewrite Hlogo).
  unfold try_except, resize_logo_try.
  unfold Image_open, bind at 1, bind at 1, emit at 1, bind at 1, get_fs at 1.
  cbn [w_fs w_log]. rewrite Hlogo.
  destruct n as [rw [fmt img|]|rw].
  - by destruct (Hno rw fmt img).
  - eexists. split; [| unfold raise at 1, print, bind, emit, ret, error_line;
                       cbn [w_fs w_log]; by rewrite <- !app_assoc].
    cbn. apply list_elem_of_further, list_elem_of_here.
  - eexists. split; [| unfold raise at 1, print, bind, emit, ret, error_line;
                       cbn [w_fs w_log]; by rewrite <- !app_assoc].
    cbn. apply list_elem_of_here.
Qed.

(** X6. When something is at [logo.png] that does not decode to an image (a
    directory, or a file no decoder identifies), the existence check passes,
    [Image.open] raises, and the script returns [False] after the error
    line: no folder is created and the file system is left as it was. *)
Theorem resize_logo_on_undecodable_logo `{PillowCore} w n :
  w_fs w !! logo_key = Some n ->
  (forall rw fmt img, n <> File rw (Encoded fmt img)) ->
  exists e,
    exn_cls e ∈ [IsADirectoryError; UnidentifiedImageError]
    /\ resize_logo w
       = (Return false,
          World (w_fs w) (w_log w ++ [banner; EvOpen "logo.png"; error_line e])).
Proof. apply resize_logo_open_fails. Qed.

(** [logo.png] is a directory. *)
Lemma resize_logo_on_undecodable_logo_witness :
  exists e,
    exn_cls e ∈ [IsADirectoryError; UnidentifiedImageError]
    /\ @resize_logo nearest_core world_logo_dir
       = (Return false,
          World (w_fs world_logo_dir)
                (w_log world_logo_dir ++ [banner; EvOpen "logo.png"; error_line e])).
Proof.
  apply (@resize_logo_on_undecodable_logo nearest_core world_logo_dir (Dir true)).
  - apply lookup_insert_eq.
  - done.
Defined.

(** ** Logo-Resizer: what every run leaves alone *)

Section Frame.
Context `{PillowCore}.
Variable img : image.

Lemma resize_one_keeps t w r w' k :
  resize_one img t w = (r, w') ->
  is_Some (w_fs w !! k) -> is_Some (w_fs w' !! k).
Proof.
  intros Hrun [v Hk]. rewrite resize_one_eq in Hrun.
  assert (Hmk : forall r1 w1, os_makedirs (folder_path_of t.1) w = (r1, w1) ->
                              is_Some (w_fs w1 !! k)).
  { intros r1 w1 (_ & Hext & _)%os_makedirs_inv.
    exists v. by eapply extends_by_keeps. }
  bind_split Hrun as a w1 H1; [| by eapply Hmk].
  apply Hmk in H1.
  bind_split Hrun as resized w2 H2.
  2:{ apply Image_resize_inv in Hrun as (-> & _). done. }
  apply Image_resize_inv in H2 as (Hfs2 & _). rewrite <- Hfs2 in H1.
  bind_split Hrun as u w3 H3.
  - unfold print, emit in Hrun. injection Hrun as <- <-. cbn [w_fs].
    by eapply Image_save_keeps.
  - by eapply Image_save_keeps.
Qed.

Lemma for_each_resize_keeps l : forall w r w' k,
  for_each l (resize_one img) w = (r, w') ->
  is_Some (w_fs w !! k) -> is_Some (w_fs w' !! k).
Proof.
  induction l as [|t l IH]; intros w r w' k Hrun Hk.
  { by inversion Hrun; subst. }
  cbn [for_each] in Hrun. bind_split Hrun as a w1 H1.
  - eapply IH; [exact Hrun|]. by eapply resize_one_keeps.
  - by eapply resize_one_keeps.
Qed.

(** A run of the loop that raises: the log tells which target failed, and
    the targets up to that one are the only ones whose paths were
    touched. *)
Lemma for_each_resize_raise l : targets_ok l -> forall w e w',
  for_each l (resize_one img) w = (Raise e, w') ->
  exists done t rest j,
    l = done ++ t :: rest
    /\ (1 <= j <= 3)%nat
    /\ w_log w' = w_log w ++ flat_map trace_one done ++ take j (trace_one t)
    /\ touched (done ++ [t]) (w_fs w) (w_fs w').
Proof.
  induction l as [|t l IH]; intros Hok w e w' Hrun; [by inversion Hrun|].
  apply targets_ok_cons in Hok as (Hok & Hne & Hpar & _).
  cbn [for_each] in Hrun.
  apply bind_inv in Hrun as [([] & w1 & H1 & Hrun) | (e' & Hrun & _)].
  - apply resize_one_inv in H1 as (Ht1 & Hret1 & _); [| done..].
    destruct (Hret1 eq_refl) as [Hlog1 _].
    destruct (IH Hok _ _ _ Hrun) as (done & t' & rest & j & -> & Hj & Hlog & Ht2).
    exists (t :: done), t', rest, j. split; [done|]. split; [done|]. split.
    + rewrite Hlog, Hlog1. cbn [flat_map]. by rewrite <- !app_assoc.
    + by eapply touched_cons.
  - apply resize_one_inv in Hrun as (Ht1 & _ & Hraise); [| done..].
    destruct (Hraise _ eq_refl) as (j & Hj & Hlog).
    by exists [], t, l, j.
Qed.

End Frame.

Lemma touched_keeps_other l fs fs' k :
  touched l fs fs' -> k ∉ output_key <$> l ->
  (forall t, t ∈ l -> ~ dir_prefix (folder_key t) k) ->
  fs' !! k = fs !! k.
Proof.
  intros Ht Hno Hnd. destruct (Ht k) as [E | [Ho | (_ & _ & t & Hin & Hp)]];
    [done | done | by destruct (Hnd t Hin)].
Qed.

(** X7. Whatever its outcome, a run of the Logo-Resizer leaves [logo.png]
    as it was and removes nothing; the only paths that differ afterwards are
    the five output files and directories it has created on the way to the
    five folders. *)
Theorem resize_logo_alters_only_its_outputs `{PillowCore} w :
  let w' := (resize_logo w).2 in
  w_fs w' !! logo_key = w_fs w !! logo_key
  /\ (forall k, is_Some (w_fs w !! k) -> is_Some (w_fs w' !! k))
  /\ (forall k, w_fs w' !! k <> w_fs w !! k ->
      k ∈ output_key <$> densities
      \/ (w_fs w !! k = None /\ w_fs w' !! k = Some (Dir true)
          /\ exists t, t ∈ densities /\ dir_prefix (folder_key t) k)).
Proof.
  cbv zeta.
  destruct (w_fs w !! logo_key) as [[rw [fmt img|]|rw]|] eqn:Hlogo.
  - destruct (for_each densities (resize_one img)
                (World (w_fs w) (w_log w ++ header img))) as [r w3] eqn:Hloop.
    rewrite (resize_logo_via_loop w rw fmt img r w3 Hlogo Hloop).
    assert (Hfs : w_fs (match r with
                        | Return _ => (Return true, World (w_fs w3) (w_log w3 ++ footer))
                        | Raise e => (Return false, World (w_fs w3) (w_log w3 ++ [error_line e]))
                        end).2 = w_fs w3) by (by destruct r).
    rewrite Hfs.
    pose proof (fun k => for_each_resize_keeps img _ _ _ _ k Hloop) as Hkeep.
    apply (for_each_resize_inv img _ densities_ok) in Hloop as (Ht & _).
    cbn [w_fs] in *. split; [| split].
    + destruct (Ht logo_key) as [E | [Ho | (N & _)]]; [congruence | | congruence].
      by destruct logo_not_output.
    + intros k Hk. by apply Hkeep.
    + intros k Hk. destruct (Ht k) as [E | [Ho | Hd]]; [done | by left | by right].
  - destruct (resize_logo_open_fails w _ Hlogo) as (e & _ & ->); [done|].
    cbn [snd w_fs]. by rewrite Hlogo.
  - destruct (resize_logo_open_fails w _ Hlogo) as (e & _ & ->); [done|].
    cbn [snd w_fs]. by rewrite Hlogo.
  - rewrite resize_logo_missing by done. cbn [snd w_fs]. by rewrite Hlogo.
Qed.

(** ** Logo-Resizer: a failure ends the loop *)

(** In [densities], a later target shares neither its output path nor its
    folder with what an earlier target touches. *)
Lemma densities_later done t rest :
  densities = done ++ t :: rest ->
  Forall (fun t' =>
            Forall (fun t0 =>
                      output_key t' <> output_key t0
                      /\ folder_key t' <> output_key t0
                      /\ ~ (output_key t' `prefix_of` folder_key t0)
                      /\ ~ (folder_key t' `prefix_of` folder_key t0))
                   (done ++ [t]))
         rest.
Proof.
  intros Hsplit.
  destruct done as [|d1 [|d2 [|d3 [|d4 [|d5 done]]]]];
    injection Hsplit as <-; intros; subst; try compute_done.
  by destruct done.
Qed.

(** X8. When the loop fails at a target, the one the log shows as the
    last one started, the targets after it are not started: the log holds
    no call of theirs, and neither their output file nor their folder
    differs from what was there before the run. *)
Theorem resize_logo_failure_spares_later_targets `{PillowCore} w rw fmt img e w1 :
  w_fs w !! logo_key = Some (File rw (Encoded fmt img)) ->
  resize_logo_try (World (w_fs w) (w_log w ++ [banner])) = (Raise e, w1) ->
  exists done t rest j,
    densities = done ++ t :: rest
    /\ (1 <= j <= 3)%nat
    /\ w_log w1 = w_log w ++ header img ++ flat_map trace_one done
                  ++ take j (trace_one t)
    /\ resize_logo w = (Return false, World (w_fs w1) (w_log w1 ++ [error_line e]))
    /\ Forall (fun t' =>
                 w_fs w1 !! output_key t' = w_fs w !! output_key t'
                 /\ w_fs w1 !! folder_key t' = w_fs w !! folder_key t')
              rest.
Proof.
  intros Hlogo Htry.
  assert (Hrun : resize_logo w
                 = (Return false, World (w_fs w1) (w_log w1 ++ [error_line e]))).
  { rewrite resize_logo_present by (by rewrite Hlogo).
    unfold try_except. rewrite Htry.
    by unfold print, bind, emit, ret, error_line. }
  unfold resize_logo_try in Htry.
  rewrite (bind_return _ _ _ _ _
             (Image_open_ok "logo.png" (World (w_fs w) (w_log w ++ [banner]))
                rw fmt img Hlogo)) in Htry.
  unfold print at 1 in Htry. unfold bind at 1, emit at 1 in Htry.
  cbn [w_fs w_log] in Htry.
  replace (((w_log w ++ [banner]) ++ [EvOpen "logo.png"]) ++
           [EvPrint ("📱 Original logo size: " +:+ show_size (im_size img))])
    with (w_log w ++ header img) in Htry
    by (unfold header; by rewrite <- !app_assoc).
  apply bind_inv in Htry as [([] & w3 & Hloop & Htry) | (e' & Htry & [= ->])].
  { unfold print, bind, emit, ret in Htry. by inversion Htry. }
  apply (for_each_resize_raise img _ densities_ok) in Htry
    as (done & t & rest & j & Hsplit & Hj & Hlog & Ht). cbn [w_fs w_log] in Ht, Hlog.
  exists done, t, rest, j. split; [done|]. split; [done|].
  split; [by rewrite Hlog, <- !app_assoc|]. split; [done|].
  pose proof (densities_later done t rest Hsplit) as Hlater.
  eapply Forall_impl; [exact Hlater|]. intros t' Hall.
  rewrite Forall_forall in Hall. split.
  - apply (touched_keeps_other _ _ _ _ Ht).
    + intros (t0 & Heq & Hin)%list_elem_of_fmap.
      by destruct (Hall _ Hin) as (Hne & _).
    + intros t0 Hin [_ Hp]. by destruct (Hall _ Hin) as (_ & _ & Hnp & _).
  - apply (touched_keeps_other _ _ _ _ Ht).
    + intros (t0 & Heq & Hin)%list_elem_of_fmap.
      by destruct (Hall _ Hin) as (_ & Hne & _).
    + intros t0 Hin [_ Hp]. by destruct (Hall _ Hin) as (_ & _ & _ & Hnp).
Qed.

(** [world_blocked]: the loop fails at [mipmap-hdpi]; the folders and
    files of the three targets after it are as absent as before. *)
Lemma resize_logo_failure_spares_later_targets_witness :
  let e := os_error FileExistsError "[Errno 17] File exists"
             "android/app/src/main/res/mipmap-hdpi" in
  let w1 := (@resize_logo_try nearest_core
               (World (w_fs world_blocked) (w_log world_blocked ++ [banner]))).2 in
  exists done t rest j,
    densities = done ++ t :: rest
    /\ (1 <= j <= 3)%nat
    /\ w_log w1 = w_log world_blocked ++ header sample_la
                  ++ flat_map trace_one done ++ take j (trace_one t)
    /\ @resize_logo nearest_core world_blocked
       = (Return false, World (w_fs w1) (w_log w1 ++ [error_line e]))
    /\ Forall (fun t' =>
                 w_fs w1 !! output_key t' = w_fs world_blocked !! output_key t'
                 /\ w_fs w1 !! folder_key t' = w_fs world_blocked !! folder_key t')
              rest.
Proof.
  intros e w1.
  apply (@resize_logo_failure_spares_later_targets nearest_core world_blocked
           true PNG sample_la).
  - apply lookup_insert_eq.
  - apply run_outcome. vm_compute. reflexivity.
Defined.

(** ** Alpha-Stripper: the other modes *)

(** X9. An icon in a mode other than ['RGBA'], ['LA'] and ['RGB'] is not
    composited: the script saves what [convert('RGB')] makes of it, in the
    size of the input, and when Pillow has no converter for the mode the
    [ValueError] leaves the script right after the decoding, before any
    [save], with the file system as it was. *)
Theorem fix_icon_other_modes_are_converted `{PillowCore} w fmt img :
  w_fs w !! icon_key = Some (File true (Encoded fmt img)) ->
  im_mode img ∉ ["RGBA"; "LA"; "RGB"] ->
  match convert_core "RGB" img with
  | Some d =>
      fix_icon_transparency w
      = (Return tt,
         World (<[icon_key := File true (Encoded PNG (Image "RGB" (im_size img) d))]>
                  (w_fs w))
               (w_log w ++ [EvOpen icon_path; EvSave icon_path PNG; icon_fixed]))
  | None =>
      fix_icon_transparency w
      = (Raise (Exn ValueError
                  ("conversion from " +:+ im_mode img +:+ " to RGB not supported")),
         World (w_fs w) (w_log w ++ [EvOpen icon_path]))
  end.
Proof.
  intros Hicon Hm.
  apply not_elem_of_cons in Hm as [Hrgba Hm].
  apply not_elem_of_cons in Hm as [Hla Hm].
  apply not_elem_of_cons in Hm as [Hrgb _].
  assert (Hflat : forall w1,
            remove_alpha img w1
            = match convert_core "RGB" img with
              | Some d => (Return (Image "RGB" (im_size img) d), w1)
              | None =>
                  (Raise (Exn ValueError
                            ("conversion from " +:+ im_mode img
                             +:+ " to RGB not supported")), w1)
              end).
  { intros w1. unfold remove_alpha, Image_convert.
    rewrite bool_decide_false
      by (rewrite !elem_of_cons, elem_of_nil; intros [? | [? | []]]; done).
    rewrite bool_decide_true by done.
    rewrite bool_decide_false by done.
    by destruct (convert_core "RGB" img). }
  destruct (convert_core "RGB" img) as [d|] eqn:Hc.
  - apply (fix_icon_run w fmt img _ Hicon). by rewrite Hflat.
  - rewrite fix_icon_present by (by rewrite Hicon).
    rewrite (bind_return _ _ _ _ _ (Image_open_ok icon_path w true fmt img Hicon)).
    apply bind_raise. by rewrite Hflat.
Qed.

(** A ['LAB'] icon, for which [nearest_core] has no converter. *)
Lemma fix_icon_other_modes_are_converted_witness :
  @fix_icon_transparency nearest_core world_lab
  = (Raise (Exn ValueError ("conversion from " +:+ "LAB" +:+ " to RGB not supported")),
     World (w_fs world_lab) (w_log world_lab ++ [EvOpen icon_path])).
Proof.
  apply (@fix_icon_other_modes_are_converted nearest_core world_lab PNG
           (Image "LAB" (1, 1) [[50; 0; 0]])).
  - apply lookup_insert_eq.
  - compute_done.
Defined.

#[local] Transparent components.
